(** * PRReview: the pull-request review bot, [scripts/pr_review_bot.py]

    A shallow embedding of the script and the proofs of its specification.

    The script is sequential orchestration of external collaborators: shell
    commands, the file system, the process environment and one HTTP call.
    The collaborators are gathered in a record [World] of oracles; what the
    script does to the outside (commands started, lines printed, comments
    sent) is accumulated in a [state].  Python exceptions are an explicit
    result, so that what is caught and what escapes can be stated. *)

From Stdlib Require Import String Ascii DecimalString.
From Stdlib Require Import List Bool NArith ZArith Lia.
Import ListNotations.

Set Implicit Arguments.

(** ** Python text

    A Python [str] is a sequence of Unicode code points. *)

Module Text.

Definition char := N.
Definition str := list char.

(** Source literals are written as in the script; the file is UTF-8, so a
    literal is decoded to its code points. *)
Fixpoint utf8_decode (bs : list N) : str :=
  match bs with
  | [] => []
  | b0 :: r0 =>
    if (b0 <? 128)%N then b0 :: utf8_decode r0
    else
      match r0 with
      | [] => [b0]
      | b1 :: r1 =>
        if (b0 <? 224)%N then
          ((b0 - 192) * 64 + (b1 - 128))%N :: utf8_decode r1
        else
          match r1 with
          | [] => [b0; b1]
          | b2 :: r2 =>
            if (b0 <? 240)%N then
              ((b0 - 224) * 4096 + (b1 - 128) * 64 + (b2 - 128))%N
                :: utf8_decode r2
            else
              match r2 with
              | [] => [b0; b1; b2]
              | b3 :: r3 =>
                ((b0 - 240) * 262144 + (b1 - 128) * 4096
                 + (b2 - 128) * 64 + (b3 - 128))%N :: utf8_decode r3
              end
          end
      end
  end.

Definition lit (s : string) : str :=
  utf8_decode (map N_of_ascii (list_ascii_of_string s)).
Arguments lit s%_string.

(** ["\n"] *)
Definition nl : str := [10%N].

Definition char_in (c : char) (l : list char) : bool :=
  existsb (N.eqb c) l.

(** [str.isspace] for one character: the code points CPython treats as
    whitespace. *)
Definition isspace (c : char) : bool :=
  char_in c [9; 10; 11; 12; 13; 28; 29; 30; 31; 32; 133; 160; 5760;
             8192; 8193; 8194; 8195; 8196; 8197; 8198; 8199; 8200; 8201;
             8202; 8232; 8233; 8239; 8287; 12288]%N.

(** The line boundaries of [str.splitlines]. *)
Definition is_linebreak (c : char) : bool :=
  char_in c [10; 11; 12; 13; 28; 29; 30; 133; 8232; 8233]%N.

Fixpoint lstrip (s : str) : str :=
  match s with
  | [] => []
  | c :: r => if isspace c then lstrip r else s
  end.

Definition rstrip (s : str) : str := rev (lstrip (rev s)).

(** [s.strip()] *)
Definition strip (s : str) : str := rstrip (lstrip s).

(** [s.splitlines()]: [cur] is the current line, reversed.  A carriage
    return followed by a line feed is one boundary; a final boundary opens
    no further line. *)
Fixpoint splitlines_from (cur : str) (s : str) : list str :=
  match s with
  | [] => match cur with [] => [] | _ => [rev cur] end
  | c :: r =>
    if (c =? 13)%N then
      match r with
      | c' :: r' =>
        if (c' =? 10)%N then rev cur :: splitlines_from [] r'
        else rev cur :: splitlines_from [] r
      | [] => rev cur :: splitlines_from [] r
      end
    else if is_linebreak c then rev cur :: splitlines_from [] r
    else splitlines_from (c :: cur) r
  end.

Definition splitlines (s : str) : list str := splitlines_from [] s.

(** [sep.join(parts)] *)
Fixpoint join (sep : str) (parts : list str) : str :=
  match parts with
  | [] => []
  | [p] => p
  | p :: rest => p ++ sep ++ join sep rest
  end.

Fixpoint startswith (s pre : str) {struct pre} : bool :=
  match pre, s with
  | [], _ => true
  | _ :: _, [] => false
  | p :: pre', c :: s' => (c =? p)%N && startswith s' pre'
  end.

(** [s.endswith(suf)] *)
Definition endswith (s suf : str) : bool := startswith (rev s) (rev suf).

(** [s.endswith((suf1, ..., sufn))] *)
Definition endswith_any (s : str) (sufs : list str) : bool :=
  existsb (endswith s) sufs.

Fixpoint str_eqb (a b : str) : bool :=
  match a, b with
  | [], [] => true
  | x :: a', y :: b' => (x =? y)%N && str_eqb a' b'
  | _, _ => false
  end.

(** [needle in s] *)
Fixpoint contains (s needle : str) : bool :=
  startswith s needle ||
  match s with
  | [] => false
  | _ :: r => contains r needle
  end.

(** Truth value of a string: non-empty. *)
Definition nonempty (s : str) : bool :=
  match s with [] => false | _ => true end.

(** [a or b] on strings. *)
Definition str_or (a b : str) : str := if nonempty a then a else b.

End Text.
Import Text.

(** [str(n)] for an integer. *)
Definition str_of_int (n : Z) : str :=
  lit (NilEmpty.string_of_int (Z.to_int n)).

Definition is_empty {A : Type} (l : list A) : bool :=
  match l with [] => true | _ => false end.

(** ** Values decoded by [json.load]

    JSON [null] is Python's [None].  A float is [m * 2^e]; an object is the
    item list of the decoded dict. *)

#[warnings="-register-all"]
Inductive json : Type :=
| JNull
| JBool (b : bool)
| JInt (n : Z)
| JFloat (m e : Z)
| JStr (s : str)
| JArr (items : list json)
| JObj (items : list (str * json)).

(** Truth value, as [if not pr] and [if ... and pr_number] test it. *)
Definition truthy (v : json) : bool :=
  match v with
  | JNull => false
  | JBool b => b
  | JInt n => negb (n =? 0)%Z
  | JFloat m _ => negb (m =? 0)%Z
  | JStr s => nonempty s
  | JArr items => negb (is_empty items)
  | JObj items => negb (is_empty items)
  end.

Fixpoint lookup (key : str) (items : list (str * json)) : json :=
  match items with
  | [] => JNull
  | (k, v) :: rest => if str_eqb k key then v else lookup key rest
  end.

(** ** The outside world *)

(** A finished process, [subprocess.CompletedProcess]. *)
Record proc : Type := Proc { returncode : Z; stdout : str; stderr : str }.

(** [subprocess.run] either completes or raises ([TimeoutExpired],
    [OSError], ...); [msg] is the text of the exception. *)
Inductive run_outcome : Type :=
| Completed (p : proc)
| RunRaised (msg : str).

(** [open] followed by [json.load]. *)
Inductive load_outcome : Type :=
| Loaded (data : json)
| LoadRaised (msg : str).

Record response : Type := Response { status_code : Z; text : str }.

(** [requests.post] either returns a response or raises
    ([ConnectionError], [Timeout], ...). *)
Inductive post_outcome : Type :=
| Responded (resp : response)
| PostRaised (msg : str).

(** The collaborators.  Each answer may depend on the commands already run
    (first argument), so that a tool can change what a later tool, or a
    later look at the file system, sees.  [requests_post] is given the
    repository, PR number and token from which the URL and headers are
    built, and the comment body.

    [path_is_file] tells whether a path names a regular file.  For a path
    that does not, [path_stat_error] is the [OSError] that the look at the
    file system raises, if any (a name too long, a directory that may not
    be searched); a missing file raises nothing.

    [stdout_encodes] tells which characters from 128 on the encoding of
    standard output has; the characters below 128 are in every encoding
    standard output is opened with. *)
Record World : Type := {
  getenv : str -> option str;
  subprocess_run : list str -> str -> run_outcome;
  path_exists : list str -> str -> bool;
  path_is_file : list str -> str -> bool;
  path_stat_error : list str -> str -> option str;
  json_load : list str -> str -> load_outcome;
  requests_post : list str -> str -> json -> str -> str -> post_outcome;
  stdout_encodes : char -> bool
}.

(** What a run has done so far: the shell commands started, the lines
    printed, and the comments sent (repository, PR number, token, body). *)
Record state : Type := State {
  calls : list str;
  printed : list str;
  posted : list (str * json * str * str)
}.

Definition init : state := State [] [] [].

(** ** Computations that can raise *)

(** [SystemExit] is not an [Exception]: [except Exception] lets it
    through. *)
Inductive exn : Type :=
| SystemExit (code : Z)
| Exception (msg : str).

Inductive result (A : Type) : Type :=
| Ok (a : A)
| Raise (e : exn).
Arguments Ok {A} a.
Arguments Raise {A} e.

Definition M (A : Type) : Type := state -> result A * state.

Definition ret {A : Type} (a : A) : M A := fun st => (Ok a, st).

Definition bind {A B : Type} (m : M A) (k : A -> M B) : M B :=
  fun st =>
    match m st with
    | (Ok a, st') => k a st'
    | (Raise e, st') => (Raise e, st')
    end.

Definition raise {A : Type} (e : exn) : M A := fun st => (Raise e, st).

(** [try: body  except Exception as e: handler(str(e))] *)
Definition try_except {A : Type} (body : M A) (handler : str -> M A) : M A :=
  fun st =>
    match body st with
    | (Raise (Exception msg), st') => handler msg st'
    | r => r
    end.

Declare Scope py_scope.
Delimit Scope py_scope with py.
Notation "x <- m ;; k" := (bind m (fun x => k))
  (at level 61, m at next level, right associativity) : py_scope.
Notation "' pat <- m ;; k" :=
  (bind m (fun x => match x with pat => k end))
  (at level 61, pat pattern, m at next level, right associativity) : py_scope.
Notation "m ;;; k" := (bind m (fun _ => k))
  (at level 61, right associativity) : py_scope.
Local Open Scope py_scope.

(** The exit status of the interpreter: 0 when [main] returns, the
    argument of [sys.exit], and 1 after a traceback. *)
Definition exit_code (r : result unit) : Z :=
  match r with
  | Ok _ => 0
  | Raise (SystemExit code) => code
  | Raise (Exception _) => 1
  end.

(** ** The script *)

Section Script.

Variable w : World.

(** *** Primitive effects *)

(** [subprocess.run(cmd, capture_output=True, text=True, timeout=...,
    shell=True)]: the command is recorded, then the world answers. *)
Definition shell (cmd : str) : M proc :=
  fun st =>
    let st' := State (calls st ++ [cmd]) (printed st) (posted st) in
    match subprocess_run w (calls st) cmd with
    | Completed p => (Ok p, st')
    | RunRaised msg => (Raise (Exception msg), st')
    end.

(** Standard output can encode the character [c]. *)
Definition encodable (c : char) : bool :=
  (c <? 128)%N || stdout_encodes w c.

(** Standard output can encode the whole line. *)
Definition can_print (line : str) : bool := forallb encodable line.

(** [print(line)]: the line is written when standard output can encode
    it; otherwise [UnicodeEncodeError] is raised and nothing is
    written. *)
Definition print (line : str) : M unit :=
  fun st =>
    if can_print line then
      (Ok tt, State (calls st) (printed st ++ [line]) (posted st))
    else
      (Raise (Exception (lit "UnicodeEncodeError: codec can't encode character")),
       st).

(** [Path(p).exists()] *)
Definition exists_ (p : str) : M bool :=
  fun st => (Ok (path_exists w (calls st) p), st).

(** [Path(p).is_file()]: [True] for a regular file; otherwise [False],
    unless the look at the file system raises an [OSError] that [is_file]
    does not swallow. *)
Definition is_file (p : str) : M bool :=
  fun st =>
    if path_is_file w (calls st) p then (Ok true, st)
    else
      match path_stat_error w (calls st) p with
      | Some msg => (Raise (Exception msg), st)
      | None => (Ok false, st)
      end.

(** [with open(p) as f: json.load(f)] *)
Definition load_json (p : str) : M json :=
  fun st =>
    match json_load w (calls st) p with
    | Loaded data => (Ok data, st)
    | LoadRaised msg => (Raise (Exception msg), st)
    end.

(** [requests.post(url, headers=headers, json={"body": body})]: the
    attempt is recorded, then the world answers. *)
Definition http_post (repo : str) (pr_number : json) (token body : str)
  : M response :=
  fun st =>
    let st' := State (calls st) (printed st)
                     (posted st ++ [(repo, pr_number, token, body)]) in
    match requests_post w (calls st) repo pr_number token body with
    | Responded resp => (Ok resp, st')
    | PostRaised msg => (Raise (Exception msg), st')
    end.

(** [v.get(key)]: only a dict has the method. *)
Definition get (v : json) (key : str) : M json :=
  match v with
  | JObj items => ret (lookup key items)
  | _ => raise (Exception (lit "AttributeError: object has no attribute 'get'"))
  end.

(** [sys.exit(code)] *)
Definition sys_exit {A : Type} (code : Z) : M A := raise (SystemExit code).

(** *** [run_cmd] (lines 10-15) *)
Definition run_cmd (cmd : str) : M (Z * str * str) :=
  try_except
    (p <- shell cmd ;;
     ret (returncode p, strip (stdout p), strip (stderr p)))
    (fun e => ret (1%Z, [], lit "Exception: " ++ e)).

(** *** [md_section] (lines 17-18) *)
Definition md_section (title body : str) : str :=
  if nonempty (strip body) then
    nl ++ lit "### " ++ title ++ nl ++ nl ++ lit "```" ++ nl
       ++ strip body ++ nl ++ lit "```" ++ nl
  else [].

(** *** [get_changed_files] (lines 20-25) *)
Definition get_changed_files (base_ref : str) : M (list str) :=
  run_cmd (lit "git fetch origin " ++ base_ref) ;;;
  '(code, out, err) <-
     run_cmd (lit "git diff --name-only origin/" ++ base_ref ++ lit "...HEAD") ;;
  if negb (code =? 0)%Z || negb (nonempty (strip out)) then ret []
  else ret (map strip
              (filter (fun line => nonempty (strip line)) (splitlines out))).

(** *** [post_pr_comment] (lines 27-32) *)
Definition post_pr_comment (repo : str) (pr_number : json) (token body : str)
  : M unit :=
  resp <- http_post repo pr_number token body ;;
  if (300 <=? status_code resp)%Z then
    print (lit "[WARN] Failed to post PR comment: "
             ++ str_of_int (status_code resp) ++ lit " " ++ text resp)
  else ret tt.

(** *** [get_pr_number_from_event] (lines 34-43)

    [None] is [JNull]. *)
Definition get_pr_number_from_event : M json :=
  let event_path :=
    match getenv w (lit "GITHUB_EVENT_PATH") with
    | Some v => v
    | None => []
    end in
  present <- (if nonempty event_path then is_file event_path else ret false) ;;
  if negb present then ret JNull
  else
    data <- load_json event_path ;;
    pr <- get data (lit "pull_request") ;;
    if negb (truthy pr) then ret JNull
    else get pr (lit "number").

(** *** One sub-check

    The block
<<
    code, out, err = run_cmd(cmd)
    if code != 0:
        sections.append(md_section(title, out or err))
        failures += 1
    else:
        sections.append(ok_line)
>>
    is written out six times in the checkers (lines 52-57, 59-64, 67-72,
    82-87, 89-94, 104-109) and differs only in [cmd], [title] and
    [ok_line].  The locals [sections] and [failures] are threaded as a
    pair. *)
Definition sub_check (cmd title ok_line : str) (acc : list str * Z)
  : M (list str * Z) :=
  let '(sections, failures) := acc in
  '(code, out, err) <- run_cmd cmd ;;
  if negb (code =? 0)%Z then
    ret (sections ++ [md_section title (str_or out err)], (failures + 1)%Z)
  else
    ret (sections ++ [ok_line], failures).

(** The success lines (lines 57, 64, 72, 87, 94, 109, 120). *)
Definition flake8_ok : str := lit "✅ flake8: no issues found." ++ nl.
Definition black_ok : str := lit "✅ black --check: formatted correctly." ++ nl.
Definition pytest_ok : str := lit "✅ pytest: all tests passed." ++ nl.
Definition eslint_ok : str := lit "✅ ESLint: no issues found." ++ nl.
Definition prettier_ok : str := lit "✅ Prettier: formatting OK." ++ nl.
Definition cpplint_ok : str := lit "✅ cpplint: no issues found." ++ nl.
Definition clang_format_ok : str := lit "✅ clang-format: formatting OK." ++ nl.

(** *** [check_python] (lines 45-73) *)
Definition check_python (files : list str) : M (str * Z) :=
  let py_files := filter (fun f => endswith f (lit ".py")) files in
  if is_empty py_files then ret ([], 0%Z)
  else
    acc <- sub_check (lit "flake8 " ++ join (lit " ") py_files)
             (lit "Python flake8")
             flake8_ok
             ([], 0%Z) ;;
    acc <- sub_check (lit "black --check " ++ join (lit " ") py_files)
             (lit "Python black --check")
             black_ok
             acc ;;
    tests <- exists_ (lit "tests") ;;
    acc <- (if tests then
              sub_check (lit "pytest -q")
                (lit "pytest")
                pytest_ok
                acc
            else ret acc) ;;
    ret (join nl (fst acc), snd acc).

(** *** [check_js] (lines 75-95)

    [missing] is the guard [not js_files or not
    Path("package.json").exists()]; [or] looks at the file system only when
    [js_files] is not empty. *)
Definition js_suffixes : list str :=
  [lit ".js"; lit ".jsx"; lit ".ts"; lit ".tsx"].

Definition check_js (files : list str) : M (str * Z) :=
  let js_files := filter (fun f => endswith_any f js_suffixes) files in
  missing <- (if is_empty js_files then ret true
              else (manifest <- exists_ (lit "package.json") ;;
                    ret (negb manifest))) ;;
  if (missing : bool) then ret ([], 0%Z)
  else
    acc <- sub_check (lit "npx --yes eslint " ++ join (lit " ") js_files)
             (lit "ESLint")
             eslint_ok
             ([], 0%Z) ;;
    acc <- sub_check (lit "npx --yes prettier -c " ++ join (lit " ") js_files)
             (lit "Prettier --check")
             prettier_ok
             acc ;;
    ret (join nl (fst acc), snd acc).

(** *** [check_cpp] (lines 97-121) *)
Definition cpp_suffixes : list str :=
  [lit ".cpp"; lit ".cc"; lit ".cxx"; lit ".h"; lit ".hpp"].

(** The loop of lines 112-115; [changed] is the list built so far. *)
Fixpoint clang_format_each (cpp_files changed : list str) : M (list str) :=
  match cpp_files with
  | [] => ret changed
  | f :: rest =>
    '(c, o, e) <- run_cmd (lit "clang-format --dry-run --Werror " ++ f) ;;
    clang_format_each rest
      (if negb (c =? 0)%Z then changed ++ [f] else changed)
  end.

Definition check_cpp (files : list str) : M (str * Z) :=
  let cpp_files := filter (fun f => endswith_any f cpp_suffixes) files in
  if is_empty cpp_files then ret ([], 0%Z)
  else
    acc <- sub_check (lit "cpplint " ++ join (lit " ") cpp_files)
             (lit "cpplint")
             cpplint_ok
             ([], 0%Z) ;;
    changed <- clang_format_each cpp_files [] ;;
    let acc :=
      if negb (is_empty changed) then
        (fst acc ++ [md_section (lit "clang-format --dry-run --Werror")
                                (join nl changed)],
         (snd acc + 1)%Z)
      else (fst acc ++ [clang_format_ok], snd acc) in
    ret (join nl (fst acc), snd acc).

(** *** Report assembly (lines 142-148 of [main]) *)
Definition header (files : list str) : str :=
  lit "## Automated Code Review Summary" ++ nl ++ nl
    ++ lit "Changed files:" ++ nl ++ lit "- "
    ++ join (nl ++ lit "- ") (firstn 50 files).

Definition failure_banner : str :=
  nl ++ nl ++ lit "❌ Some checks failed. Please address the issues above.".

Definition success_banner : str :=
  nl ++ nl ++ lit "✅ All checks passed. Nice work!".

Definition report_body (files : list str) (python_md js_md cpp_md : str)
    (total_fail : Z) : str :=
  let body := header files ++ nl ++ nl ++ python_md ++ js_md ++ cpp_md in
  if (0 <? total_fail)%Z then body ++ failure_banner
  else body ++ success_banner.

(** *** Publishing

    [if repo and token and pr_number: post_pr_comment(repo, pr_number,
    token, body)] (lines 133-134 and 150-151); an unset variable is
    [None]. *)
Definition env_truthy (v : option str) : bool :=
  match v with Some s => nonempty s | None => false end.

Definition publish (repo token : option str) (pr_number : json) (body : str)
  : M unit :=
  if env_truthy repo && env_truthy token && truthy pr_number then
    post_pr_comment (match repo with Some r => r | None => [] end)
                    pr_number
                    (match token with Some t => t | None => [] end)
                    body
  else ret tt.

(** *** [main] (lines 123-154) *)
Definition skip_summary : str :=
  lit "No changed files detected or unable to compute diff. Skipping checks.".

Definition main : M unit :=
  let repo := getenv w (lit "GITHUB_REPOSITORY") in
  let base_ref :=
    match getenv w (lit "GITHUB_BASE_REF") with
    | Some v => v
    | None => lit "main"
    end in
  let token := getenv w (lit "GITHUB_TOKEN") in
  pr_number <- get_pr_number_from_event ;;
  files <- get_changed_files base_ref ;;
  if is_empty files then
    print skip_summary ;;;
    publish repo token pr_number skip_summary
  else
    '(python_md, py_fail) <- check_python files ;;
    '(js_md, js_fail) <- check_js files ;;
    '(cpp_md, cpp_fail) <- check_cpp files ;;
    let total_fail := (py_fail + js_fail + cpp_fail)%Z in
    let body := report_body files python_md js_md cpp_md total_fail in
    publish repo token pr_number body ;;;
    print body ;;;
    if (0 <? total_fail)%Z then sys_exit 1 else ret tt.

End Script.

(** [python scripts/pr_review_bot.py] in the world [w]: the outcome of
    [main] and everything it did. *)
Definition run (w : World) : result unit * state := main w init.

(** ** Observations of a run, used to state the properties *)

(** What [run_cmd] hands back for an answer of the world. *)
Definition cmd_result (o : run_outcome) : Z * str * str :=
  match o with
  | Completed p => (returncode p, strip (stdout p), strip (stderr p))
  | RunRaised msg => (1%Z, [], lit "Exception: " ++ msg)
  end.

Definition ran (cmd : str) (st : state) : state :=
  State (calls st ++ [cmd]) (printed st) (posted st).

Definition event_path (w : World) : str :=
  match getenv w (lit "GITHUB_EVENT_PATH") with
  | Some v => v
  | None => []
  end.

Definition base_ref_of (w : World) : str :=
  match getenv w (lit "GITHUB_BASE_REF") with
  | Some v => v
  | None => lit "main"
  end.

Definition fetch_cmd (base_ref : str) : str :=
  lit "git fetch origin " ++ base_ref.

Definition diff_cmd (base_ref : str) : str :=
  lit "git diff --name-only origin/" ++ base_ref ++ lit "...HEAD".

(** The ChangedFileSet of a run. *)
Definition changed_files (w : World) : list str :=
  match get_changed_files w (base_ref_of w) init with
  | (Ok files, _) => files
  | (Raise _, _) => []
  end.

(** The three checkers in the order of [main], summing their counts. *)
Definition checks (w : World) (files : list str) : M Z :=
  '(_, py_fail) <- check_python w files ;;
  '(_, js_fail) <- check_js w files ;;
  '(_, cpp_fail) <- check_cpp w files ;;
  ret (py_fail + js_fail + cpp_fail)%Z.

(** The total failure count of a run: the checkers run on the
    ChangedFileSet, right after the diff. *)
Definition total_failures (w : World) : Z :=
  match (files <- get_changed_files w (base_ref_of w) ;; checks w files) init with
  | (Ok n, _) => n
  | (Raise _, _) => 0%Z
  end.

(** The world [w] with another HTTP collaborator. *)
Definition with_post (w : World)
    (post : list str -> str -> json -> str -> str -> post_outcome) : World :=
  Build_World (getenv w) (subprocess_run w) (path_exists w) (path_is_file w)
              (path_stat_error w) (json_load w) post (stdout_encodes w).

(** The HTTP collaborator always answers with a response. *)
Definition post_responds (w : World) : Prop :=
  forall h repo pr token body,
    exists resp, requests_post w h repo pr token body = Responded resp.


(** A string is trimmed: non-empty, no whitespace at either end. *)
Definition trimmed (p : str) : Prop := p <> [] /\ strip p = p.

(** [st'] continues [st]: more commands may have run, nothing was
    printed or sent. *)
Definition extends (st st' : state) : Prop :=
  printed st' = printed st /\ posted st' = posted st /\
  exists more, calls st' = calls st ++ more.

(** The guard of the publishing step: [repo and token and pr_number]. *)
Definition publish_enabled (w : World) (pr : json) : bool :=
  env_truthy (getenv w (lit "GITHUB_REPOSITORY"))
  && env_truthy (getenv w (lit "GITHUB_TOKEN")) && truthy pr.

(** ** Sample worlds *)

Definition env_of (vars : list (str * str)) (name : str) : option str :=
  match find (fun kv => str_eqb (fst kv) name) vars with
  | Some kv => Some (snd kv)
  | None => None
  end.

Definition completed (code : Z) (out err : str) : run_outcome :=
  Completed (Proc code out err).

(** A pull-request context: repository, token, and an event file for
    PR 7. *)
Definition pr_env : str -> option str :=
  env_of [(lit "GITHUB_REPOSITORY", lit "octo/demo");
          (lit "GITHUB_TOKEN", lit "secret");
          (lit "GITHUB_EVENT_PATH", lit "event.json")].

Definition pr_event : json :=
  JObj [(lit "pull_request", JObj [(lit "number", JInt 7)])].

(** The diff reports one changed file, [path]; every other command
    succeeds silently. *)
Definition diff_reports (path : str) (cmd : str) : run_outcome :=
  if startswith cmd (lit "git diff ") then completed 0 (path ++ nl) []
  else completed 0 [] [].

(** No environment, no files on disk, nothing changed, every tool
    succeeds silently. *)
Definition quiet_world : World :=
  {| getenv := fun _ => None;
     subprocess_run := fun _ _ => completed 0 [] [];
     path_exists := fun _ _ => false;
     path_is_file := fun _ _ => false;
     path_stat_error := fun _ _ => None;
     json_load := fun _ _ => LoadRaised (lit "No such file or directory");
     requests_post := fun _ _ _ _ _ => Responded (Response 201 []);
     stdout_encodes := fun _ => true |}.

(** A pull request that changes nothing, while the API host cannot be
    reached. *)
Definition offline_world : World :=
  {| getenv := pr_env;
     subprocess_run := fun _ _ => completed 0 [] [];
     path_exists := fun _ _ => false;
     path_is_file := fun _ p => str_eqb p (lit "event.json");
     path_stat_error := fun _ _ => None;
     json_load := fun _ _ => Loaded pr_event;
     requests_post := fun _ _ _ _ _ =>
       PostRaised (lit "ConnectionError: api.github.com");
     stdout_encodes := fun _ => true |}.

(** The same pull request with the API answering 201. *)
Definition online_world : World :=
  with_post offline_world (fun _ _ _ _ _ => Responded (Response 201 [])).





(** [a.py] changed; flake8 passes, black would reformat it, and there is
    no [tests] directory. *)
Definition black_fails_world : World :=
  {| getenv := fun _ => None;
     subprocess_run := fun _ cmd =>
       if startswith cmd (lit "black ") then
         completed 1 (lit "would reformat a.py") []
       else diff_reports (lit "a.py") cmd;
     path_exists := fun _ _ => false;
     path_is_file := fun _ _ => false;
     path_stat_error := fun _ _ => None;
     json_load := fun _ _ => LoadRaised (lit "No such file or directory");
     requests_post := fun _ _ _ _ _ => Responded (Response 201 []);
     stdout_encodes := fun _ => true |}.

(** The fetch fails (no network), yet the remote-tracking branch is there
    and the diff lists [a.py]. *)
Definition fetch_fails_world : World :=
  {| getenv := fun _ => None;
     subprocess_run := fun _ cmd =>
       if startswith cmd (lit "git fetch ") then
         completed 128 [] (lit "fatal: unable to access remote")
       else diff_reports (lit "a.py") cmd;
     path_exists := fun _ _ => false;
     path_is_file := fun _ _ => false;
     path_stat_error := fun _ _ => None;
     json_load := fun _ _ => LoadRaised (lit "No such file or directory");
     requests_post := fun _ _ _ _ _ => Responded (Response 201 []);
     stdout_encodes := fun _ => true |}.

(** Every command times out. *)
Definition timeout_world : World :=
  {| getenv := fun _ => None;
     subprocess_run := fun _ _ =>
       RunRaised (lit "Command timed out after 600 seconds");
     path_exists := fun _ _ => false;
     path_is_file := fun _ _ => false;
     path_stat_error := fun _ _ => None;
     json_load := fun _ _ => LoadRaised (lit "No such file or directory");
     requests_post := fun _ _ _ _ _ => Responded (Response 201 []);
     stdout_encodes := fun _ => true |}.

(** [x.ts] changed in a checkout without [package.json]. *)
Definition no_manifest_world : World :=
  {| getenv := fun _ => None;
     subprocess_run := fun _ cmd => diff_reports (lit "x.ts") cmd;
     path_exists := fun _ _ => false;
     path_is_file := fun _ _ => false;
     path_stat_error := fun _ _ => None;
     json_load := fun _ _ => LoadRaised (lit "No such file or directory");
     requests_post := fun _ _ _ _ _ => Responded (Response 201 []);
     stdout_encodes := fun _ => true |}.

(** ** Conditions on standard output and on the comment call *)


(** The warning line of [post_pr_comment]. *)
Definition warning_line (resp : response) : str :=
  lit "[WARN] Failed to post PR comment: "
    ++ str_of_int (status_code resp) ++ lit " " ++ text resp.

(** The state once a comment has been handed to the HTTP collaborator. *)
Definition attempted (repo : str) (pr : json) (token body : str) (st : state)
  : state :=
  State (calls st) (printed st) (posted st ++ [(repo, pr, token, body)]).

(** What a sub-check appends for the result of its tool. *)
Definition tool_section (title ok_line : str) (r : Z * str * str) : str :=
  let '(code, out, err) := r in
  if negb (code =? 0)%Z then md_section title (str_or out err) else ok_line.

(** ** Further observations *)

(** The exit code [run_cmd] reports for [cmd] after the commands [h]. *)
Definition exit_status (w : World) (h : list str) (cmd : str) : Z :=
  fst (fst (cmd_result (subprocess_run w h cmd))).

(** 1 when [cmd], run after [h], fails; 0 when it passes. *)
Definition failed (w : World) (h : list str) (cmd : str) : Z :=
  if negb (exit_status w h cmd =? 0)%Z then 1%Z else 0%Z.

(** The tools answer the same whatever ran before them. *)
Definition stateless (w : World) : Prop :=
  forall h h' cmd, subprocess_run w h cmd = subprocess_run w h' cmd.

(** Every command exits 0. *)
Definition all_pass (w : World) : Prop :=
  forall h cmd, exit_status w h cmd = 0%Z.


(** The files each checker keeps, and the commands it builds from them. *)
Definition py_files (files : list str) : list str :=
  filter (fun f => endswith f (lit ".py")) files.

Definition js_files (files : list str) : list str :=
  filter (fun f => endswith_any f js_suffixes) files.

Definition cpp_files (files : list str) : list str :=
  filter (fun f => endswith_any f cpp_suffixes) files.

Definition flake8_cmd (files : list str) : str :=
  lit "flake8 " ++ join (lit " ") (py_files files).

Definition black_cmd (files : list str) : str :=
  lit "black --check " ++ join (lit " ") (py_files files).

Definition pytest_cmd : str := lit "pytest -q".

Definition eslint_cmd (files : list str) : str :=
  lit "npx --yes eslint " ++ join (lit " ") (js_files files).

Definition prettier_cmd (files : list str) : str :=
  lit "npx --yes prettier -c " ++ join (lit " ") (js_files files).

Definition cpplint_cmd (files : list str) : str :=
  lit "cpplint " ++ join (lit " ") (cpp_files files).

Definition clang_format_cmd (f : str) : str :=
  lit "clang-format --dry-run --Werror " ++ f.

(** The repository and the token a comment is sent with. *)
Definition repo_of (w : World) : str :=
  match getenv w (lit "GITHUB_REPOSITORY") with Some r => r | None => [] end.

Definition token_of (w : World) : str :=
  match getenv w (lit "GITHUB_TOKEN") with Some t => t | None => [] end.

(** The state of a run after the diff resolver. *)
Definition after_diff (w : World) : state :=
  ran (diff_cmd (base_ref_of w)) (ran (fetch_cmd (base_ref_of w)) init).

(** The publishing step of [main], with the repository and the token
    read from the environment. *)
Definition publish_step (w : World) (pr : json) (body : str) : M unit :=
  publish w (getenv w (lit "GITHUB_REPOSITORY"))
            (getenv w (lit "GITHUB_TOKEN")) pr body.

(** The comment a run sends with [body], if publishing is on. *)
Definition sent (w : World) (pr : json) (body : str)
  : list (str * json * str * str) :=
  if publish_enabled w pr then [(repo_of w, pr, token_of w, body)] else [].

(** The comment call of a run, if the run makes one, is answered with a
    response.  Nothing starts a command after the call, so the commands
    started by then are those of the whole run. *)
Definition comment_call_responds (w : World) : Prop :=
  forall repo pr token body,
    In (repo, pr, token, body) (posted (snd (run w))) ->
    exists resp,
      requests_post w (calls (snd (run w))) repo pr token body
      = Responded resp.

Definition is_object (v : json) : bool :=
  match v with JObj _ => true | _ => false end.

(** A character that is a line boundary nowhere occurs in [p]. *)
Definition single_line (p : str) : Prop :=
  forall c, In c p -> is_linebreak c = false.

(** ** Further sample worlds *)




(** The event file holds a JSON array. *)
Definition array_event_world : World :=
  {| getenv := pr_env;
     subprocess_run := fun _ cmd => diff_reports (lit "a.py") cmd;
     path_exists := fun _ _ => false;
     path_is_file := fun _ p => str_eqb p (lit "event.json");
     path_stat_error := fun _ _ => None;
     json_load := fun _ _ => Loaded (JArr [JInt 7]);
     requests_post := fun _ _ _ _ _ => Responded (Response 201 []);
     stdout_encodes := fun _ => true |}.

(** The event file holds ["pull_request": "7"], a string. *)
Definition string_pr_world : World :=
  {| getenv := pr_env;
     subprocess_run := fun _ cmd => diff_reports (lit "a.py") cmd;
     path_exists := fun _ _ => false;
     path_is_file := fun _ p => str_eqb p (lit "event.json");
     path_stat_error := fun _ _ => None;
     json_load := fun _ _ =>
       Loaded (JObj [(lit "pull_request", JStr (lit "7"))]);
     requests_post := fun _ _ _ _ _ => Responded (Response 201 []);
     stdout_encodes := fun _ => true |}.

(** [a.py] changed and every tool passes, but standard output is ASCII
    only; no GITHUB variable is set. *)
Definition ascii_stdout_world : World :=
  {| getenv := fun _ => None;
     subprocess_run := fun _ cmd => diff_reports (lit "a.py") cmd;
     path_exists := fun _ _ => false;
     path_is_file := fun _ _ => false;
     path_stat_error := fun _ _ => None;
     json_load := fun _ _ => LoadRaised (lit "No such file or directory");
     requests_post := fun _ _ _ _ _ => Responded (Response 201 []);
     stdout_encodes := fun _ => false |}.


(** The event path is longer than the file system allows. *)
Definition long_path_world : World :=
  {| getenv := env_of [(lit "GITHUB_EVENT_PATH", repeat 120%N 300)];
     subprocess_run := fun _ cmd => diff_reports (lit "a.py") cmd;
     path_exists := fun _ _ => false;
     path_is_file := fun _ _ => false;
     path_stat_error := fun _ _ => Some (lit "[Errno 36] File name too long");
     json_load := fun _ _ => LoadRaised (lit "File name too long");
     requests_post := fun _ _ _ _ _ => Responded (Response 201 []);
     stdout_encodes := fun _ => true |}.

(** [x.ts] changed in a project with [package.json]; ESLint complains. *)
Definition eslint_fails_world : World :=
  {| getenv := fun _ => None;
     subprocess_run := fun _ cmd =>
       if startswith cmd (lit "npx --yes eslint ") then
         completed 2 (lit "x.ts: 1 problem") []
       else diff_reports (lit "x.ts") cmd;
     path_exists := fun _ p => str_eqb p (lit "package.json");
     path_is_file := fun _ _ => false;
     path_stat_error := fun _ _ => None;
     json_load := fun _ _ => LoadRaised (lit "No such file or directory");
     requests_post := fun _ _ _ _ _ => Responded (Response 201 []);
     stdout_encodes := fun _ => true |}.

(** [a.cpp] and [b.h] changed; cpplint passes, clang-format would change
    [b.h] only. *)
Definition clang_format_world : World :=
  {| getenv := fun _ => None;
     subprocess_run := fun _ cmd =>
       if str_eqb cmd (lit "clang-format --dry-run --Werror b.h") then
         completed 1 [] (lit "b.h:1:1: error: code should be clang-formatted")
       else diff_reports (lit "a.cpp" ++ nl ++ lit "b.h") cmd;
     path_exists := fun _ _ => false;
     path_is_file := fun _ _ => false;
     path_stat_error := fun _ _ => None;
     json_load := fun _ _ => LoadRaised (lit "No such file or directory");
     requests_post := fun _ _ _ _ _ => Responded (Response 201 []);
     stdout_encodes := fun _ => true |}.



(** Fifty-two changed paths: one more than the header lists, and one
    more. *)
Definition fifty_two_files : list str :=
  repeat (lit "first.py") 50 ++ [lit "fifty-first.py"; lit "fifty-second.py"].

(** * Properties *)

(** Literals are compared as written, not decoded, in the general
    proofs. *)
Opaque lit.

(** ** The model on small inputs *)

Example lit_check_mark : lit "✅ ok" = [9989; 32; 111; 107]%N.
Proof. vm_compute. reflexivity. Qed.

Example lit_cross_mark : lit "❌" = [10060]%N.
Proof. vm_compute. reflexivity. Qed.

Example strip_sample : strip (lit "  a b
 ") = lit "a b".
Proof. vm_compute. reflexivity. Qed.

Example splitlines_sample :
  splitlines (lit "a.py" ++ [13; 10]%N ++ nl ++ lit "b.py" ++ nl)
  = [lit "a.py"; []; lit "b.py"].
Proof. vm_compute. reflexivity. Qed.

Example endswith_sample :
  endswith (lit "src/a.py") (lit ".py") = true /\
  endswith (lit "py") (lit ".py") = false /\
  endswith_any (lit "x.tsx") [lit ".js"; lit ".jsx"; lit ".ts"; lit ".tsx"] = true.
Proof. vm_compute. repeat split. Qed.

Example str_of_int_sample :
  str_of_int 404 = lit "404" /\ str_of_int 0 = lit "0".
Proof. vm_compute. split; reflexivity. Qed.

Example md_section_sample :
  md_section (lit "pytest") (lit " 1 failed ") =
  nl ++ lit "### pytest" ++ nl ++ nl ++ lit "```" ++ nl ++ lit "1 failed"
     ++ nl ++ lit "```" ++ nl.
Proof. vm_compute. reflexivity. Qed.

(** The scenario of the specification: [a.py] changed, the linter passes,
    the formatter check fails, no test directory. *)
Example check_python_scenario :
  fst (check_python black_fails_world [lit "a.py"] init) =
  Ok (flake8_ok ++ nl
        ++ md_section (lit "Python black --check") (lit "would reformat a.py"),
      1%Z).
Proof. vm_compute. reflexivity. Qed.

Example run_black_fails : exit_code (fst (run black_fails_world)) = 1%Z.
Proof. vm_compute. reflexivity. Qed.

Example run_quiet :
  run quiet_world =
  (Ok tt, State [fetch_cmd (lit "main"); diff_cmd (lit "main")]
                [skip_summary] []).
Proof. vm_compute. reflexivity. Qed.

Example run_online_posts :
  posted (snd (run online_world))
  = [(lit "octo/demo", JInt 7, lit "secret", skip_summary)].
Proof. vm_compute. reflexivity. Qed.

(** ** Text *)

Lemma startswith_app (pre s : str) : startswith (pre ++ s) pre = true.
Proof.
  induction pre as [|c pre IH]; simpl.
  - reflexivity.
  - rewrite N.eqb_refl. exact IH.
Qed.


Lemma endswith_app (s suf : str) : endswith (s ++ suf) suf = true.
Proof.
  unfold endswith. rewrite rev_app_distr. apply startswith_app.
Qed.


(** Two strings whose last characters differ are not suffixes of one
    another's extensions. *)
Lemma endswith_last_differs (s a b : str) (x y : char) :
  x <> y -> endswith (s ++ a ++ [x]) (b ++ [y]) = false.
Proof.
  intros Hxy. unfold endswith.
  rewrite !app_assoc, !rev_app_distr. simpl.
  apply N.eqb_neq in Hxy. rewrite Hxy. reflexivity.
Qed.

Lemma lstrip_app_nonspace (l t : str) (c : char) :
  isspace c = false -> lstrip (l ++ c :: t) = lstrip l ++ c :: t.
Proof.
  intros Hc. induction l as [|a l IH]; simpl.
  - rewrite Hc. reflexivity.
  - destruct (isspace a); [exact IH | reflexivity].
Qed.

Lemma lstrip_head (s : str) :
  lstrip s = [] \/ exists c r, lstrip s = c :: r /\ isspace c = false.
Proof.
  induction s as [|a s IH]; simpl.
  - left. reflexivity.
  - destruct (isspace a) eqn:Ha; [exact IH|].
    right. exists a, s. split; [reflexivity | exact Ha].
Qed.

Lemma lstrip_nonspace (c : char) (r : str) :
  isspace c = false -> lstrip (c :: r) = c :: r.
Proof. intros H. simpl. rewrite H. reflexivity. Qed.

Lemma lstrip_idem (s : str) : lstrip (lstrip s) = lstrip s.
Proof.
  destruct (lstrip_head s) as [E | (c & r & E & Hc)]; rewrite E.
  - reflexivity.
  - apply lstrip_nonspace, Hc.
Qed.

Lemma rstrip_nonspace (c : char) (r : str) :
  isspace c = false -> rstrip (c :: r) = c :: rstrip r.
Proof.
  intros Hc. unfold rstrip. simpl rev at 2.
  rewrite (lstrip_app_nonspace (rev r) [] c Hc), rev_app_distr.
  reflexivity.
Qed.

Lemma rstrip_idem (s : str) : rstrip (rstrip s) = rstrip s.
Proof.
  unfold rstrip. rewrite rev_involutive, lstrip_idem. reflexivity.
Qed.

(** Stripping leaves either nothing or a string that starts with a
    character that is not whitespace. *)
Lemma strip_head (s : str) :
  strip s = [] \/ exists c r, strip s = c :: r /\ isspace c = false.
Proof.
  unfold strip.
  destruct (lstrip_head s) as [E | (c & r & E & Hc)]; rewrite E.
  - left. reflexivity.
  - right. exists c, (rstrip r). split; [apply rstrip_nonspace, Hc | exact Hc].
Qed.

Lemma lstrip_strip (s : str) : lstrip (strip s) = strip s.
Proof.
  destruct (strip_head s) as [E | (c & r & E & Hc)]; rewrite E.
  - reflexivity.
  - apply lstrip_nonspace, Hc.
Qed.

Lemma strip_idem (s : str) : strip (strip s) = strip s.
Proof.
  unfold strip at 1. rewrite lstrip_strip.
  unfold strip. apply rstrip_idem.
Qed.

Lemma strip_nonspace_head (c : char) (r : str) :
  isspace c = false -> strip (c :: r) = c :: rstrip r.
Proof.
  intros Hc. unfold strip. rewrite (lstrip_nonspace c r Hc).
  apply rstrip_nonspace, Hc.
Qed.

Lemma nonempty_true (s : str) : nonempty s = true <-> s <> [].
Proof. destruct s; simpl; split; congruence. Qed.

Lemma nonempty_false (s : str) : nonempty s = false <-> s = [].
Proof. destruct s; simpl; split; congruence. Qed.

Lemma join_cons (sep p : str) (rest : list str) :
  join sep (p :: rest) = p ++ flat_map (fun q => sep ++ q) rest.
Proof.
  revert p. induction rest as [|q rest IH]; intros p.
  - simpl. rewrite app_nil_r. reflexivity.
  - change (join sep (p :: q :: rest)) with (p ++ sep ++ join sep (q :: rest)).
    rewrite IH. simpl. rewrite <- app_assoc. reflexivity.
Qed.

(** ** The monad and the primitive effects *)

Lemma extends_refl (st : state) : extends st st.
Proof.
  repeat split. exists []. rewrite app_nil_r. reflexivity.
Qed.

Lemma extends_trans (a b c : state) :
  extends a b -> extends b c -> extends a c.
Proof.
  intros (P1 & Q1 & m1 & C1) (P2 & Q2 & m2 & C2).
  repeat split; [congruence | congruence |].
  exists (m1 ++ m2). rewrite C2, C1, app_assoc. reflexivity.
Qed.

Lemma extends_ran (cmd : str) (st : state) : extends st (ran cmd st).
Proof. repeat split. exists [cmd]. reflexivity. Qed.

Create HintDb script.
#[local] Hint Resolve extends_refl extends_ran extends_trans : script.

Section ScriptFacts.

Variable w : World.

(** [run_cmd] never raises: it runs the command once and reports what the
    world answered, an exception included. *)
Lemma run_cmd_eq (cmd : str) (st : state) :
  run_cmd w cmd st
  = (Ok (cmd_result (subprocess_run w (calls st) cmd)), ran cmd st).
Proof.
  unfold run_cmd, try_except, bind, shell, ret, cmd_result, ran.
  destruct (subprocess_run w (calls st) cmd); reflexivity.
Qed.

Lemma sub_check_fail (cmd title ok_line : str) (sections : list str)
    (failures : Z) (st : state) (code : Z) (out err : str) :
  cmd_result (subprocess_run w (calls st) cmd) = (code, out, err) ->
  code <> 0%Z ->
  sub_check w cmd title ok_line (sections, failures) st
  = (Ok (sections ++ [md_section title (str_or out err)], (failures + 1)%Z),
     ran cmd st).
Proof.
  intros E Hc. unfold sub_check, bind. rewrite run_cmd_eq, E.
  apply Z.eqb_neq in Hc. rewrite Hc. reflexivity.
Qed.

Lemma sub_check_pass (cmd title ok_line : str) (sections : list str)
    (failures : Z) (st : state) (out err : str) :
  cmd_result (subprocess_run w (calls st) cmd) = (0%Z, out, err) ->
  sub_check w cmd title ok_line (sections, failures) st
  = (Ok (sections ++ [ok_line], failures), ran cmd st).
Proof.
  intros E. unfold sub_check, bind. rewrite run_cmd_eq, E. reflexivity.
Qed.

(** A sub-check always appends one section and adds 0 or 1 to the
    count. *)
Lemma sub_check_total (cmd title ok_line : str) (acc : list str * Z)
    (st : state) :
  exists sec d,
    sub_check w cmd title ok_line acc st
    = (Ok (fst acc ++ [sec], (snd acc + d)%Z), ran cmd st)
    /\ (0 <= d <= 1)%Z.
Proof.
  destruct acc as [sections failures].
  destruct (cmd_result (subprocess_run w (calls st) cmd))
    as [[code out] err] eqn:E.
  destruct (Z.eq_dec code 0) as [-> | Hc].
  - exists ok_line, 0%Z. rewrite (sub_check_pass _ _ _ _ _ _ E).
    simpl. rewrite Z.add_0_r. split; [reflexivity | lia].
  - exists (md_section title (str_or out err)), 1%Z.
    rewrite (sub_check_fail _ _ _ _ _ _ E Hc). split; [reflexivity | lia].
Qed.

(** Run the next sub-check of the goal and name what it returns. *)
Ltac run_sub_check sec d E B :=
  unfold bind at 1;
  match goal with
  | |- context [sub_check _ ?c ?t ?o ?a ?s] =>
    destruct (sub_check_total c t o a s) as (sec & d & E & B)
  end;
  rewrite E.

Lemma clang_format_each_total (cpp_files changed : list str) (st : state) :
  exists changed' st',
    clang_format_each w cpp_files changed st = (Ok changed', st')
    /\ extends st st'.
Proof.
  revert changed st.
  induction cpp_files as [|f rest IH]; intros changed st.
  - exists changed, st. split; [reflexivity | apply extends_refl].
  - simpl. unfold bind. rewrite run_cmd_eq.
    destruct (cmd_result _) as [[c o] e].
    destruct (IH (if negb (c =? 0)%Z then changed ++ [f] else changed)
                 (ran (lit "clang-format --dry-run --Werror " ++ f) st))
      as (changed' & st' & E & X).
    exists changed', st'. split; [exact E|].
    eapply extends_trans; [apply extends_ran | exact X].
Qed.

(** *** The checkers return, with a bounded count *)

Lemma check_python_total (files : list str) (st : state) :
  exists md n st',
    check_python w files st = (Ok (md, n), st')
    /\ (0 <= n <= 3)%Z
    /\ ((forall h, path_exists w h (lit "tests") = false) -> (n <= 2)%Z)
    /\ extends st st'.
Proof.
  unfold check_python.
  destruct (is_empty _).
  { exists [], 0%Z, st. split; [reflexivity|]. split; [lia|].
    split; [intros; lia | apply extends_refl]. }
  run_sub_check s1 d1 E1 B1.
  run_sub_check s2 d2 E2 B2.
  unfold bind at 1, exists_ at 1. cbn [fst snd].
  match goal with
  | |- context [path_exists w ?h ?p] => destruct (path_exists w h p) eqn:T
  end.
  - run_sub_check s3 d3 E3 B3.
    unfold ret. cbn [fst snd].
    eexists _, _, _. split; [reflexivity|].
    split; [lia|]. split.
    + intros Hno. rewrite Hno in T. discriminate.
    + eauto 6 with script.
  - unfold bind, ret. cbn [fst snd].
    eexists _, _, _. split; [reflexivity|].
    split; [lia|]. split; [intros; lia|].
    eauto 6 with script.
Qed.

Lemma check_js_total (files : list str) (st : state) :
  exists md n st',
    check_js w files st = (Ok (md, n), st')
    /\ (0 <= n <= 2)%Z
    /\ extends st st'.
Proof.
  unfold check_js.
  assert (Skip : exists md n st',
             ret (A := str * Z) ([], 0%Z) st = (Ok (md, n), st')
             /\ (0 <= n <= 2)%Z /\ extends st st').
  { exists [], 0%Z, st. split; [reflexivity|]. split; [lia|].
    apply extends_refl. }
  unfold bind at 1.
  destruct (is_empty _).
  { exact Skip. }
  unfold bind at 1, exists_ at 1.
  destruct (path_exists w (calls st) (lit "package.json")); cbn [negb ret].
  2: { exact Skip. }
  run_sub_check s1 d1 E1 B1.
  run_sub_check s2 d2 E2 B2.
  unfold ret. cbn [fst snd].
  eexists _, _, _. split; [reflexivity|].
  split; [lia|].
  eauto 6 with script.
Qed.

Lemma check_cpp_total (files : list str) (st : state) :
  exists md n st',
    check_cpp w files st = (Ok (md, n), st')
    /\ (0 <= n <= 2)%Z
    /\ extends st st'.
Proof.
  unfold check_cpp.
  destruct (is_empty _).
  { exists [], 0%Z, st. split; [reflexivity|]. split; [lia|].
    apply extends_refl. }
  run_sub_check s1 d1 E1 B1.
  unfold bind at 1.
  match goal with
  | |- context [clang_format_each w ?fs ?ch ?s] =>
    destruct (clang_format_each_total fs ch s) as (changed & st2 & E2 & X2)
  end.
  rewrite E2. unfold ret. cbn [fst snd].
  destruct (negb (is_empty changed)); cbn [fst snd];
    (eexists _, _, _; split; [reflexivity|]; split; [lia|]);
    eauto 6 with script.
Qed.

End ScriptFacts.

(** ** The checkers, tool by tool *)

Section CheckerFacts.

Variable w : World.

(** A sub-check runs its command once, appends the section of the
    result and adds [failed] to the count. *)
Lemma sub_check_exact (cmd title ok_line : str) (acc : list str * Z)
    (st : state) :
  sub_check w cmd title ok_line acc st
  = (Ok (fst acc
           ++ [tool_section title ok_line
                 (cmd_result (subprocess_run w (calls st) cmd))],
         (snd acc + failed w (calls st) cmd)%Z),
     ran cmd st).
Proof.
  destruct acc as [sections failures].
  unfold sub_check, bind. rewrite run_cmd_eq.
  unfold failed, exit_status, tool_section.
  destruct (cmd_result (subprocess_run w (calls st) cmd)) as [[code out] err].
  cbn [fst snd].
  destruct (negb (code =? 0)%Z); [reflexivity|].
  rewrite Z.add_0_r. reflexivity.
Qed.

Lemma ran_ran (a b : str) (st : state) :
  ran b (ran a st) = State (calls st ++ [a; b]) (printed st) (posted st).
Proof.
  unfold ran. cbn [calls printed posted]. rewrite <- app_assoc. reflexivity.
Qed.

Lemma is_empty_false (A : Type) (l : list A) : l <> [] -> is_empty l = false.
Proof. destruct l; [contradiction | reflexivity]. Qed.

(** The Python checker on at least one [.py] file: its report, its count
    and the commands it ran. *)
Lemma check_python_report (files : list str) (st : state) :
  py_files files <> [] ->
  let h1 := calls st ++ [flake8_cmd files] in
  let h2 := calls st ++ [flake8_cmd files; black_cmd files] in
  let tests := path_exists w h2 (lit "tests") in
  check_python w files st
  = (Ok (join nl
           ([tool_section (lit "Python flake8") flake8_ok
               (cmd_result (subprocess_run w (calls st) (flake8_cmd files)));
             tool_section (lit "Python black --check") black_ok
               (cmd_result (subprocess_run w h1 (black_cmd files)))]
            ++ (if tests then
                  [tool_section (lit "pytest") pytest_ok
                     (cmd_result (subprocess_run w h2 pytest_cmd))]
                else [])),
         (failed w (calls st) (flake8_cmd files)
          + failed w h1 (black_cmd files)
          + (if tests then failed w h2 pytest_cmd else 0))%Z),
     State (h2 ++ (if tests then [pytest_cmd] else []))
           (printed st) (posted st)).
Proof.
  intros Hne h1 h2 tests. subst h1 h2 tests.
  unfold check_python. fold (py_files files).
  rewrite (is_empty_false Hne).
  fold (flake8_cmd files). fold (black_cmd files). fold pytest_cmd.
  unfold bind at 1. rewrite sub_check_exact.
  unfold bind at 1. rewrite sub_check_exact.
  unfold bind at 1, exists_ at 1. rewrite ran_ran. cbn [calls fst snd ran app].
  destruct (path_exists w (calls st ++ [flake8_cmd files; black_cmd files])
                        (lit "tests")).
  - unfold bind at 1. rewrite sub_check_exact.
    unfold ret. cbn [fst snd calls ran printed posted app].
    rewrite Z.add_0_l. reflexivity.
  - unfold bind, ret. cbn [fst snd].
    rewrite Z.add_0_l, Z.add_0_r, !app_nil_r. reflexivity.
Qed.

(** The script-language checker on at least one script file, with the
    manifest present. *)
Lemma check_js_report (files : list str) (st : state) :
  js_files files <> [] ->
  path_exists w (calls st) (lit "package.json") = true ->
  check_js w files st
  = (Ok (join nl
           [tool_section (lit "ESLint") eslint_ok
              (cmd_result (subprocess_run w (calls st) (eslint_cmd files)));
            tool_section (lit "Prettier --check") prettier_ok
              (cmd_result (subprocess_run w (calls st ++ [eslint_cmd files])
                                          (prettier_cmd files)))],
         (failed w (calls st) (eslint_cmd files)
          + failed w (calls st ++ [eslint_cmd files]) (prettier_cmd files))%Z),
     State (calls st ++ [eslint_cmd files; prettier_cmd files])
           (printed st) (posted st)).
Proof.
  intros Hne Hman.
  unfold check_js. fold (js_files files).
  rewrite (is_empty_false Hne).
  fold (eslint_cmd files). fold (prettier_cmd files).
  unfold bind at 1 2, exists_. rewrite Hman. cbn [negb ret].
  unfold bind at 1. rewrite sub_check_exact.
  unfold bind at 1. rewrite sub_check_exact.
  unfold ret. rewrite ran_ran. cbn [fst snd calls ran app].
  rewrite Z.add_0_l. reflexivity.
Qed.

(** *** The per-file format check *)

Lemma existsb_filter (A : Type) (p : A -> bool) (l : list A) :
  existsb p l = negb (is_empty (filter p l)).
Proof.
  induction l as [|a l IH]; [reflexivity|].
  simpl. destruct (p a); [reflexivity | exact IH].
Qed.

(** The loop starts one dry run per file, in order; what it collects comes
    from its input; for stateless tools it is the files whose dry run
    exited non-zero, and nothing when every command passes. *)
Lemma clang_format_each_exact (fs : list str) :
  forall (changed : list str) (st : state),
    exists changed',
      clang_format_each w fs changed st
      = (Ok changed',
         State (calls st ++ map clang_format_cmd fs) (printed st) (posted st))
      /\ (forall f, In f changed' -> In f changed \/ In f fs)
      /\ (stateless w ->
          changed'
          = changed
              ++ filter (fun f =>
                           negb (exit_status w [] (clang_format_cmd f) =? 0)%Z)
                        fs)
      /\ (all_pass w -> changed' = changed).
Proof.
  induction fs as [|f rest IH]; intros changed st.
  - exists changed. cbn [clang_format_each map filter].
    rewrite !app_nil_r. split; [destruct st; reflexivity|].
    split; [intros; left; assumption|]. split; reflexivity.
  - cbn [clang_format_each]. unfold bind at 1. rewrite run_cmd_eq.
    fold (clang_format_cmd f).
    destruct (cmd_result (subprocess_run w (calls st) (clang_format_cmd f)))
      as [[c o] e] eqn:R.
    destruct (IH (if negb (c =? 0)%Z then changed ++ [f] else changed)
                 (ran (clang_format_cmd f) st)) as (changed' & E & I & S & P).
    exists changed'. rewrite E. cbn [calls printed posted ran map].
    rewrite <- app_assoc. split; [reflexivity|]. split; [|split].
    + intros g Hg. destruct (I g Hg) as [H | H].
      * destruct (negb (c =? 0)%Z).
        -- apply in_app_or in H. destruct H as [H | [<- | []]].
           ++ left. exact H.
           ++ right. left. reflexivity.
        -- left. exact H.
      * right. right. exact H.
    + intros Hs. rewrite (S Hs). cbn [filter].
      unfold exit_status. rewrite (Hs [] (calls st)), R. cbn [fst].
      destruct (negb (c =? 0)%Z); [|reflexivity].
      rewrite <- app_assoc. reflexivity.
    + intros Hp. rewrite (P Hp).
      pose proof (Hp (calls st) (clang_format_cmd f)) as Z0.
      unfold exit_status in Z0. rewrite R in Z0. cbn [fst] in Z0.
      subst c. reflexivity.
Qed.

(** The native-language checker on at least one matched file; [changed]
    is what the per-file loop collects. *)
Lemma check_cpp_report (files : list str) (st : state) :
  cpp_files files <> [] ->
  exists changed,
    fst (clang_format_each w (cpp_files files) []
           (ran (cpplint_cmd files) st)) = Ok changed
    /\ check_cpp w files st
       = (Ok (join nl
                [tool_section (lit "cpplint") cpplint_ok
                   (cmd_result (subprocess_run w (calls st)
                                               (cpplint_cmd files)));
                 if negb (is_empty changed) then
                   md_section (lit "clang-format --dry-run --Werror")
                              (join nl changed)
                 else clang_format_ok],
              (failed w (calls st) (cpplint_cmd files)
               + (if negb (is_empty changed) then 1 else 0))%Z),
          State (calls st ++ cpplint_cmd files
                   :: map clang_format_cmd (cpp_files files))
                (printed st) (posted st))
    /\ (stateless w ->
        changed
        = filter (fun f =>
                    negb (exit_status w [] (clang_format_cmd f) =? 0)%Z)
                 (cpp_files files))
    /\ (all_pass w -> changed = []).
Proof.
  intros Hne.
  destruct (clang_format_each_exact (cpp_files files) []
              (ran (cpplint_cmd files) st)) as (changed & E2 & _ & S & P).
  exists changed. split; [rewrite E2; reflexivity|].
  split; [|split; [exact S | exact P]].
  unfold check_cpp. fold (cpp_files files).
  rewrite (is_empty_false Hne).
  fold (cpplint_cmd files).
  unfold bind at 1. rewrite sub_check_exact.
  unfold bind at 1. rewrite E2.
  unfold ret. cbn [fst snd calls printed posted ran app].
  replace ((calls st ++ [cpplint_cmd files])
             ++ map clang_format_cmd (cpp_files files))
    with (calls st ++ cpplint_cmd files
            :: map clang_format_cmd (cpp_files files))
    by (rewrite <- app_assoc; reflexivity).
  rewrite Z.add_0_l.
  destruct (negb (is_empty changed)); cbn [fst snd];
    [|rewrite Z.add_0_r]; reflexivity.
Qed.

End CheckerFacts.

(** ** Standard output *)

Section PrintFacts.

Variable w : World.

Lemma print_ok (line : str) (st : state) :
  can_print w line = true ->
  print w line st
  = (Ok tt, State (calls st) (printed st ++ [line]) (posted st)).
Proof. intros H. unfold print. rewrite H. reflexivity. Qed.

Lemma print_fails (line : str) (st : state) :
  can_print w line = false ->
  exists msg, print w line st = (Raise (Exception msg), st).
Proof. intros H. unfold print. rewrite H. eexists. reflexivity. Qed.

Lemma can_print_ascii (line : str) :
  forallb (fun c => (c <? 128)%N) line = true -> can_print w line = true.
Proof.
  unfold can_print. rewrite !forallb_forall. intros H c Hc.
  unfold encodable. rewrite (H c Hc). reflexivity.
Qed.


Lemma can_print_skip_summary : can_print w skip_summary = true.
Proof. apply can_print_ascii. vm_compute. reflexivity. Qed.

End PrintFacts.

(** ** A run, step by step *)

Section RunFacts.

Variable w : World.

(** The lookup returns a value or raises an [Exception], and changes
    nothing outside. *)
Lemma get_pr_number_result (st : state) :
  (exists pr, get_pr_number_from_event w st = (Ok pr, st))
  \/ (exists msg, get_pr_number_from_event w st = (Raise (Exception msg), st)).
Proof.
  unfold get_pr_number_from_event, bind, is_file, load_json, get, ret, raise.
  destruct (nonempty _); [|left; eexists; reflexivity].
  destruct (path_is_file w _ _).
  2: { destruct (path_stat_error w _ _);
         [right | left]; eexists; reflexivity. }
  cbn [negb].
  destruct (json_load w _ _) as [data | msg]; [|right; eexists; reflexivity].
  destruct data; try (right; eexists; reflexivity).
  destruct (truthy _); [|left; eexists; reflexivity]. cbn [negb].
  destruct (lookup _ _);
    solve [left; eexists; reflexivity | right; eexists; reflexivity].
Qed.

(** Reading the PR number changes nothing outside. *)
Lemma get_pr_number_pure (st : state) :
  snd (get_pr_number_from_event w st) = st.
Proof.
  destruct (get_pr_number_result st) as [[pr E] | [msg E]];
    rewrite E; reflexivity.
Qed.

(** The diff resolver: two commands, then the lines of the diff. *)
Lemma get_changed_files_eq (base_ref : str) (st : state) :
  get_changed_files w base_ref st
  = (Ok (let '(code, out, _) :=
           cmd_result (subprocess_run w (calls st ++ [fetch_cmd base_ref])
                                      (diff_cmd base_ref)) in
         if negb (code =? 0)%Z || negb (nonempty (strip out)) then []
         else map strip
                (filter (fun line => nonempty (strip line)) (splitlines out))),
     ran (diff_cmd base_ref) (ran (fetch_cmd base_ref) st)).
Proof.
  unfold get_changed_files, bind. rewrite run_cmd_eq.
  fold (fetch_cmd base_ref). fold (diff_cmd base_ref).
  rewrite run_cmd_eq. cbn [calls ran].
  destruct (cmd_result _) as [[code out] err].
  destruct (negb (code =? 0)%Z || negb (nonempty (strip out))); reflexivity.
Qed.

(** [post_pr_comment] on a response: the warning is printed for a status
    of 300 or more, and that is all. *)
Lemma post_pr_comment_responded (repo : str) (pr : json) (token body : str)
    (st : state) (resp : response) :
  requests_post w (calls st) repo pr token body = Responded resp ->
  post_pr_comment w repo pr token body st
  = (if (300 <=? status_code resp)%Z
     then print w (warning_line resp) (attempted repo pr token body st)
     else (Ok tt, attempted repo pr token body st)).
Proof.
  intros E. unfold post_pr_comment, bind, http_post. rewrite E.
  fold (warning_line resp).
  destruct (300 <=? status_code resp)%Z; reflexivity.
Qed.

Lemma post_pr_comment_raised (repo : str) (pr : json) (token body : str)
    (st : state) (msg : str) :
  requests_post w (calls st) repo pr token body = PostRaised msg ->
  post_pr_comment w repo pr token body st
  = (Raise (Exception msg), attempted repo pr token body st).
Proof.
  intros E. unfold post_pr_comment, bind, http_post. rewrite E. reflexivity.
Qed.

(** Publishing sends at most one comment and runs no command; it either
    returns, having printed at most a warning, or raises: the exception of
    the HTTP call, or that of a warning that standard output cannot
    encode. *)
Lemma publish_general (pr : json) (body : str) (st : state) :
  exists r st',
    publish_step w pr body st = (r, st')
    /\ calls st' = calls st
    /\ posted st' = posted st ++ sent w pr body
    /\ ((r = Ok tt
         /\ (exists warn,
               printed st' = printed st ++ warn /\ length warn <= 1)
         /\ (publish_enabled w pr = true ->
             exists resp,
               requests_post w (calls st) (repo_of w) pr (token_of w) body
               = Responded resp))
        \/ (publish_enabled w pr = true
            /\ printed st' = printed st
            /\ exists msg,
                 r = Raise (Exception msg)
                 /\ (requests_post w (calls st) (repo_of w) pr (token_of w)
                                   body = PostRaised msg
                     \/ exists resp,
                          requests_post w (calls st) (repo_of w) pr
                                        (token_of w) body = Responded resp
                          /\ can_print w (warning_line resp) = false))).
Proof.
  unfold sent, publish_step, publish. fold (publish_enabled w pr).
  fold (repo_of w). fold (token_of w).
  destruct (publish_enabled w pr).
  - destruct (requests_post w (calls st) (repo_of w) pr (token_of w) body)
      as [resp | msg] eqn:E.
    + rewrite (@post_pr_comment_responded _ _ _ _ _ _ E).
      destruct (300 <=? status_code resp)%Z.
      * destruct (can_print w (warning_line resp)) eqn:Cp.
        -- rewrite (@print_ok w _ _ Cp).
           eexists _, _. split; [reflexivity|].
           cbn [calls posted printed attempted].
           split; [reflexivity|]. split; [reflexivity|]. left.
           split; [reflexivity|].
           split; [eexists; split; [reflexivity | simpl; lia]|].
           intros _. exists resp. reflexivity.
        -- destruct (print_fails w (warning_line resp)
                       (attempted (repo_of w) pr (token_of w) body st) Cp)
             as [msg Pf].
           rewrite Pf. eexists _, _. split; [reflexivity|].
           cbn [calls posted printed attempted].
           split; [reflexivity|]. split; [reflexivity|]. right.
           split; [reflexivity|]. split; [reflexivity|].
           exists msg. split; [reflexivity|]. right.
           exists resp. split; [reflexivity | exact Cp].
      * eexists _, _. split; [reflexivity|].
        cbn [calls posted printed attempted].
        split; [reflexivity|]. split; [reflexivity|]. left.
        split; [reflexivity|].
        split; [exists []; rewrite app_nil_r; split; [reflexivity|simpl; lia]|].
        intros _. exists resp. reflexivity.
    + rewrite (@post_pr_comment_raised _ _ _ _ _ _ E).
      eexists _, _. split; [reflexivity|].
      cbn [calls posted printed attempted].
      split; [reflexivity|]. split; [reflexivity|]. right.
      split; [reflexivity|]. split; [reflexivity|].
      exists msg. split; [reflexivity|]. left. reflexivity.
  - exists (Ok tt), st. split; [reflexivity|]. split; [reflexivity|].
    split; [rewrite app_nil_r; reflexivity|].
    left. split; [reflexivity|].
    split; [|discriminate].
    exists []. rewrite app_nil_r. split; [reflexivity | simpl; lia].
Qed.

Lemma changed_files_eq :
  get_changed_files w (base_ref_of w) init = (Ok (changed_files w), after_diff w).
Proof.
  unfold changed_files, after_diff. rewrite get_changed_files_eq. reflexivity.
Qed.

Lemma total_failures_eq (n : Z) (st' : state) :
  checks w (changed_files w) (after_diff w) = (Ok n, st') ->
  total_failures w = n.
Proof.
  intros H. unfold total_failures, bind.
  rewrite changed_files_eq, H. reflexivity.
Qed.

Lemma checks_nil (st : state) : checks w [] st = (Ok 0%Z, st).
Proof. reflexivity. Qed.

(** The checkers never raise; their counts add up. *)
Lemma checks_total (files : list str) (st : state) :
  exists pm pn jm jn cm cn st2 st3 st4,
    check_python w files st = (Ok (pm, pn), st2)
    /\ check_js w files st2 = (Ok (jm, jn), st3)
    /\ check_cpp w files st3 = (Ok (cm, cn), st4)
    /\ checks w files st = (Ok (pn + jn + cn)%Z, st4)
    /\ (0 <= pn + jn + cn <= 7)%Z
    /\ extends st st4.
Proof.
  destruct (check_python_total w files st) as (pm & pn & st2 & E2 & B2 & _ & X2).
  destruct (check_js_total w files st2) as (jm & jn & st3 & E3 & B3 & X3).
  destruct (check_cpp_total w files st3) as (cm & cn & st4 & E4 & B4 & X4).
  exists pm, pn, jm, jn, cm, cn, st2, st3, st4.
  repeat (split; [assumption|]).
  split; [|split; [lia | eauto using extends_trans]].
  unfold checks, bind. rewrite E2, E3, E4. reflexivity.
Qed.

Lemma total_failures_nil : changed_files w = [] -> total_failures w = 0%Z.
Proof.
  intros F. pose proof total_failures_eq as T. rewrite F in T.
  exact (T _ _ (checks_nil _)).
Qed.


Lemma run_lookup_raised (e : exn) :
  get_pr_number_from_event w init = (Raise e, init) -> run w = (Raise e, init).
Proof. intros H. unfold run, main, bind. rewrite H. reflexivity. Qed.

(** [main], once the PR number is read and nothing has changed. *)
Lemma run_nothing_changed (pr : json) :
  get_pr_number_from_event w init = (Ok pr, init) ->
  changed_files w = [] ->
  run w = publish_step w pr skip_summary
            (State (calls (after_diff w)) [skip_summary] []).
Proof.
  intros Hpr F.
  unfold run, main, publish_step. fold (base_ref_of w).
  unfold bind at 1. rewrite Hpr.
  unfold bind at 1. rewrite changed_files_eq, F. cbn [is_empty].
  unfold bind at 1. rewrite print_ok by apply can_print_skip_summary.
  reflexivity.
Qed.

(** [main], once the PR number is read and the checkers have run. *)
Lemma run_changed (pr : json) :
  get_pr_number_from_event w init = (Ok pr, init) ->
  changed_files w <> [] ->
  exists python_md js_md cpp_md st4,
    extends (after_diff w) st4
    /\ run w
       = (let body := report_body (changed_files w) python_md js_md
                        cpp_md (total_failures w) in
          publish_step w pr body ;;;
          print w body ;;;
          if (0 <? total_failures w)%Z then sys_exit 1 else ret tt) st4.
Proof.
  intros Hpr Hne.
  unfold run, main, publish_step. fold (base_ref_of w).
  unfold bind at 1. rewrite Hpr.
  unfold bind at 1. rewrite changed_files_eq.
  pose proof total_failures_eq as T.
  destruct (changed_files w) as [|f files] eqn:F; [contradiction|].
  cbn [is_empty].
  destruct (checks_total (f :: files) (after_diff w))
    as (pm & pn & jm & jn & cm & cn & st2 & st3 & st4
        & E2 & E3 & E4 & E & _ & X).
  rewrite (T _ _ E).
  unfold bind at 1. rewrite E2.
  unfold bind at 1. rewrite E3.
  unfold bind at 1. rewrite E4.
  exists pm, jm, cm, st4. split; [exact X | reflexivity].
Qed.

(** Every run that got past the PR-number lookup: how it ends, what it
    ran, sent and printed.  It ends as the failure count decides, or with
    the exception of the publishing step, or with that of a report that
    standard output cannot encode. *)
Lemma run_cases (pr : json) :
  get_pr_number_from_event w init = (Ok pr, init) ->
  exists body more r st',
    run w = (r, st')
    /\ calls st' = calls (after_diff w) ++ more
    /\ posted st' = sent w pr body
    /\ (changed_files w = [] -> body = skip_summary /\ more = [])
    /\ (changed_files w <> [] ->
        exists python_md js_md cpp_md,
          body = report_body (changed_files w) python_md js_md cpp_md
                             (total_failures w))
    /\ ((r = (if (0 <? total_failures w)%Z then Raise (SystemExit 1)
              else Ok tt)
         /\ (exists warn,
               printed st' = if is_empty (changed_files w)
                             then skip_summary :: warn else warn ++ [body])
         /\ (publish_enabled w pr = true ->
             exists resp,
               requests_post w (calls (after_diff w) ++ more) (repo_of w) pr
                             (token_of w) body = Responded resp))
        \/ (publish_enabled w pr = true
            /\ printed st' = (if is_empty (changed_files w)
                              then [skip_summary] else [])
            /\ exists msg,
                 r = Raise (Exception msg)
                 /\ (requests_post w (calls (after_diff w) ++ more) (repo_of w)
                                   pr (token_of w) body = PostRaised msg
                     \/ exists resp,
                          requests_post w (calls (after_diff w) ++ more)
                                        (repo_of w) pr (token_of w) body
                          = Responded resp
                          /\ can_print w (warning_line resp) = false))
        \/ (changed_files w <> []
            /\ can_print w body = false
            /\ (exists msg, r = Raise (Exception msg))
            /\ length (printed st') <= 1
            /\ (publish_enabled w pr = true ->
                exists resp,
                  requests_post w (calls (after_diff w) ++ more) (repo_of w)
                                pr (token_of w) body = Responded resp))).
Proof.
  intros Hpr.
  destruct (changed_files w) as [|f files] eqn:F.
  - pose proof (run_nothing_changed Hpr F) as R.
    pose proof (total_failures_nil F) as T0.
    destruct (publish_general pr skip_summary
                (State (calls (after_diff w)) [skip_summary] []))
      as (r & st' & E & C & P & O).
    rewrite E in R. cbn [calls posted printed app] in C, P, O.
    exists skip_summary, [], r, st'. rewrite app_nil_r.
    split; [exact R|]. split; [exact C|]. split; [exact P|].
    split; [intros _; split; reflexivity|]. split; [intros H; contradiction|].
    rewrite T0. cbn [is_empty Z.ltb Z.compare].
    destruct O as [(-> & (warn & Wn & _) & Rs) | (G & Pr & msg & -> & Rs)].
    + left. split; [reflexivity|]. split; [exists warn; exact Wn | exact Rs].
    + right. left. split; [exact G|]. split; [exact Pr|]. exists msg.
      split; [reflexivity | exact Rs].
  - assert (Hne : changed_files w <> []) by (rewrite F; discriminate).
    destruct (run_changed Hpr Hne)
      as (pm & jm & cm & st4 & (O4 & Q4 & more & C4) & R).
    rewrite F in R. cbv zeta in R.
    set (body := report_body (f :: files) pm jm cm (total_failures w)) in *.
    unfold bind at 1 in R.
    destruct (publish_general pr body st4) as (r0 & st5 & E & C & P & O).
    rewrite E in R.
    assert (O1 : printed (after_diff w) = []) by reflexivity.
    assert (Q1 : posted (after_diff w) = []) by reflexivity.
    rewrite Q4, Q1 in P. cbn [app] in P.
    rewrite O4, O1 in O. rewrite C4 in O. cbn [app] in O.
    exists body, more.
    assert (Common : forall r st', run w = (r, st') -> calls st' = calls st5 ->
              posted st' = posted st5 ->
              run w = (r, st')
              /\ calls st' = calls (after_diff w) ++ more
              /\ posted st' = sent w pr body
              /\ (f :: files = [] -> body = skip_summary /\ more = [])
              /\ (f :: files <> [] ->
                  exists python_md js_md cpp_md,
                    body = report_body (f :: files) python_md js_md cpp_md
                                       (total_failures w))).
    { intros r st' Rr Cc Pp. split; [exact Rr|].
      split; [rewrite Cc, C; exact C4|]. split; [rewrite Pp; exact P|].
      split; [intros H; discriminate|].
      intros _. exists pm, jm, cm. reflexivity. }
    destruct O as [(-> & (warn & Wn & Wl) & Rs) | (G & Pr & msg & -> & Rs)].
    + unfold bind at 1 in R.
      destruct (can_print w body) eqn:Cp.
      * rewrite (@print_ok w _ _ Cp) in R.
        destruct (0 <? total_failures w)%Z;
          (eexists _, _;
           destruct (Common _ _ R eq_refl eq_refl) as (c1 & c2 & c3 & c4 & c5);
           split; [exact c1|]; split; [exact c2|]; split; [exact c3|];
           split; [exact c4|]; split; [exact c5|];
           left; split; [reflexivity|];
           split; [exists warn; cbn [printed is_empty]; rewrite Wn;
                   reflexivity | exact Rs]).
      * destruct (print_fails w body st5 Cp) as [msg Pf].
        rewrite Pf in R.
        eexists _, _.
        destruct (Common _ _ R eq_refl eq_refl) as (c1 & c2 & c3 & c4 & c5).
        split; [exact c1|]. split; [exact c2|]. split; [exact c3|].
        split; [exact c4|]. split; [exact c5|].
        right. right. split; [discriminate|]. split; [reflexivity|].
        split; [exists msg; reflexivity|].
        split; [rewrite Wn; exact Wl | exact Rs].
    + eexists _, _.
      destruct (Common _ _ R eq_refl eq_refl) as (c1 & c2 & c3 & c4 & c5).
      split; [exact c1|]. split; [exact c2|]. split; [exact c3|].
      split; [exact c4|]. split; [exact c5|].
      right. left. split; [exact G|]. split; [exact Pr|].
      exists msg. split; [reflexivity | exact Rs].
Qed.


End RunFacts.

(** ** Conditions on a run *)

Lemma post_responds_comment_call (w : World) :
  post_responds w -> comment_call_responds w.
Proof. intros H repo pr token body _. apply H. Qed.



(** ** The properties of the specification *)

(** *** Exit code (C1) *)







(** The same holds of standard output: [a.py] changed, every tool passes
    and no comment is due, but standard output is ASCII only, so that
    printing the report raises and the exit code is 1. *)
Example exit_code_ascii_stdout :
  total_failures ascii_stdout_world = 0%Z
  /\ posted (snd (run ascii_stdout_world)) = []
  /\ printed (snd (run ascii_stdout_world)) = []
  /\ exit_code (fst (run ascii_stdout_world)) = 1%Z.
Proof. vm_compute. repeat split. Qed.

(** *** Checkers without matching files (C2) *)

Lemma filter_none (A : Type) (p : A -> bool) (l : list A) :
  Forall (fun x => p x = false) l -> filter p l = [].
Proof.
  induction 1 as [|x l Hx _ IH]; simpl.
  - reflexivity.
  - rewrite Hx. exact IH.
Qed.

(** C2.  A checker given no file of its extensions returns [("", 0)] and
    leaves the state as it was: no command was started.  The
    script-language checker does the same whenever [package.json] is
    absent, whatever the files. *)
Theorem checkers_skip_without_files (w : World) (files : list str)
    (st : state) :
  (Forall (fun f => endswith f (lit ".py") = false) files ->
   check_python w files st = (Ok ([], 0%Z), st))
  /\ (Forall (fun f => endswith_any f js_suffixes = false) files ->
      check_js w files st = (Ok ([], 0%Z), st))
  /\ (Forall (fun f => endswith_any f cpp_suffixes = false) files ->
      check_cpp w files st = (Ok ([], 0%Z), st))
  /\ (path_exists w (calls st) (lit "package.json") = false ->
      check_js w files st = (Ok ([], 0%Z), st)).
Proof.
  repeat split.
  - intros H. unfold check_python. rewrite (filter_none _ H). reflexivity.
  - intros H. unfold check_js. rewrite (filter_none _ H). reflexivity.
  - intros H. unfold check_cpp. rewrite (filter_none _ H). reflexivity.
  - intros H. unfold check_js, bind, exists_.
    destruct (is_empty _); [reflexivity|].
    rewrite H. reflexivity.
Qed.

Lemma checkers_skip_without_files_witness :
  (Forall (fun f => endswith f (lit ".py") = false) [lit "x.ts"]
   /\ check_python no_manifest_world [lit "x.ts"] init = (Ok ([], 0%Z), init))
  /\ (Forall (fun f => endswith_any f js_suffixes = false) [lit "a.py"]
      /\ check_js no_manifest_world [lit "a.py"] init = (Ok ([], 0%Z), init))
  /\ (Forall (fun f => endswith_any f cpp_suffixes = false) [lit "a.py"]
      /\ check_cpp no_manifest_world [lit "a.py"] init = (Ok ([], 0%Z), init))
  /\ (path_exists no_manifest_world (calls init) (lit "package.json") = false
      /\ check_js no_manifest_world [lit "x.ts"] init = (Ok ([], 0%Z), init)).
Proof.
  assert (Hpy : Forall (fun f => endswith f (lit ".py") = false) [lit "x.ts"]).
  { constructor; [vm_compute; reflexivity | constructor]. }
  assert (Hjs : Forall (fun f => endswith_any f js_suffixes = false)
                       [lit "a.py"]).
  { constructor; [vm_compute; reflexivity | constructor]. }
  assert (Hcpp : Forall (fun f => endswith_any f cpp_suffixes = false)
                        [lit "a.py"]).
  { constructor; [vm_compute; reflexivity | constructor]. }
  assert (Hman : path_exists no_manifest_world (calls init)
                   (lit "package.json") = false) by reflexivity.
  split; [split; [exact Hpy|]|split; [split; [exact Hjs|]|split;
    [split; [exact Hcpp|]|split; [exact Hman|]]]].
  - exact (proj1 (checkers_skip_without_files no_manifest_world
                    [lit "x.ts"] init) Hpy).
  - exact (proj1 (proj2 (checkers_skip_without_files no_manifest_world
                           [lit "a.py"] init)) Hjs).
  - exact (proj1 (proj2 (proj2 (checkers_skip_without_files no_manifest_world
                                  [lit "a.py"] init))) Hcpp).
  - exact (proj2 (proj2 (proj2 (checkers_skip_without_files no_manifest_world
                                  [lit "x.ts"] init))) Hman).
Defined.

(** *** What the checkers report for a tool (C3) *)

Lemma md_section_nonblank (title body : str) :
  strip body <> [] ->
  md_section title body
  = nl ++ lit "### " ++ title ++ nl ++ nl ++ lit "```" ++ nl
       ++ strip body ++ nl ++ lit "```" ++ nl.
Proof.
  intros H. unfold md_section.
  apply nonempty_true in H. rewrite H. reflexivity.
Qed.

Lemma md_section_blank (title body : str) :
  strip body = [] -> md_section title body = [].
Proof.
  intros H. unfold md_section. rewrite H. reflexivity.
Qed.

Lemma exception_text_nonblank (msg : str) :
  strip (lit "Exception: " ++ msg) <> [].
Proof.
  assert (E : lit "Exception: " = 69%N :: tl (lit "Exception: "))
    by (vm_compute; reflexivity).
  rewrite E. cbn [app].
  rewrite strip_nonspace_head by (vm_compute; reflexivity).
  discriminate.
Qed.




(** *** The PR number (C4) *)





(** *** Posting the comment (C5) *)




(** *** The diff resolver (C6) *)

Lemma is_linebreak_space (c : char) :
  is_linebreak c = true -> isspace c = true.
Proof.
  unfold is_linebreak, char_in. cbn [existsb]. intros H.
  repeat (apply orb_true_iff in H; destruct H as [H | H]);
    try discriminate;
    apply N.eqb_eq in H; subst c; vm_compute; reflexivity.
Qed.

Lemma In_lstrip (x : char) (l : str) : In x (lstrip l) -> In x l.
Proof.
  induction l as [|a l IH]; simpl; [tauto|].
  destruct (isspace a); [right; auto | exact (fun H => H)].
Qed.

Lemma In_strip (x : char) (l : str) : In x (strip l) -> In x l.
Proof.
  unfold strip, rstrip. intros H.
  apply In_lstrip.
  apply in_rev in H. apply In_lstrip in H. apply in_rev in H. exact H.
Qed.

Lemma nonspace_In_lstrip (x : char) (l : str) :
  In x l -> isspace x = false -> In x (lstrip l).
Proof.
  intros Hin Hx. induction l as [|a l IH]; simpl; [exact Hin|].
  destruct (isspace a) eqn:Ha; [|exact Hin].
  destruct Hin as [-> | Hin]; [congruence | auto].
Qed.

Lemma nonspace_In_strip (x : char) (l : str) :
  In x l -> isspace x = false -> In x (strip l).
Proof.
  intros Hin Hx. unfold strip, rstrip.
  apply in_rev. rewrite rev_involutive.
  apply nonspace_In_lstrip; [|exact Hx].
  apply in_rev. rewrite rev_involutive.
  apply nonspace_In_lstrip; assumption.
Qed.

Lemma strip_nonblank (x : char) (l : str) :
  In x l -> isspace x = false -> strip l <> [].
Proof.
  intros Hin Hx E.
  pose proof (@nonspace_In_strip x l Hin Hx) as H.
  rewrite E in H. exact H.
Qed.

Lemma nonblank_has_nonspace (s : str) :
  strip s <> [] -> exists x, In x s /\ isspace x = false.
Proof.
  intros H. destruct (strip_head s) as [E | (c & r & E & Hc)]; [contradiction|].
  exists c. split; [|exact Hc].
  apply In_strip. rewrite E. left. reflexivity.
Qed.

(** A text with a character that is not whitespace has a line that is
    not blank. *)
Lemma splitlines_from_nonblank (n : nat) :
  forall (s cur : str),
    length s <= n ->
    (exists x, In x (rev cur ++ s) /\ isspace x = false) ->
    exists l, In l (splitlines_from cur s) /\ strip l <> [].
Proof.
  induction n as [|n IH]; intros s cur Hlen (x & Hin & Hx).
  - destruct s; [|simpl in Hlen; lia].
    rewrite app_nil_r in Hin. simpl.
    destruct cur as [|a cur]; [contradiction|].
    exists (rev (a :: cur)). split; [left; reflexivity|].
    eapply strip_nonblank; eassumption.
  - destruct s as [|c r].
    + rewrite app_nil_r in Hin. simpl.
      destruct cur as [|a cur]; [contradiction|].
      exists (rev (a :: cur)). split; [left; reflexivity|].
      eapply strip_nonblank; eassumption.
    + simpl in Hlen.
      assert (Head : In x (rev cur) ->
                     exists l, In l (rev cur :: nil) /\ strip l <> []).
      { intros Hc. exists (rev cur). split; [left; reflexivity|].
        eapply strip_nonblank; eassumption. }
      assert (Tail : forall t, length t <= n -> In x t ->
                     exists l, In l (splitlines_from [] t) /\ strip l <> []).
      { intros t Ht Hxt. apply IH; [exact Ht|].
        exists x. split; [exact Hxt | exact Hx]. }
      apply in_app_or in Hin.
      cbn [splitlines_from].
      destruct (c =? 13)%N eqn:E13.
      * apply N.eqb_eq in E13. subst c.
        destruct Hin as [Hc | [<- | Hr]].
        -- destruct (Head Hc) as (l & [<- | []] & Hl).
           exists (rev cur). split; [|exact Hl].
           destruct r as [|c' r']; [left; reflexivity|].
           destruct (c' =? 10)%N; left; reflexivity.
        -- vm_compute in Hx. discriminate.
        -- destruct r as [|c' r']; [contradiction|].
           destruct (c' =? 10)%N eqn:E10.
           ++ apply N.eqb_eq in E10. subst c'.
              destruct Hr as [<- | Hr]; [vm_compute in Hx; discriminate|].
              destruct (Tail r') as (l & Hl & Hs);
                [simpl in Hlen; lia | exact Hr |].
              exists l. split; [right; exact Hl | exact Hs].
           ++ destruct (Tail (c' :: r')) as (l & Hl & Hs);
                [lia | exact Hr |].
              exists l. split; [right; exact Hl | exact Hs].
      * destruct (is_linebreak c) eqn:Elb.
        -- apply is_linebreak_space in Elb.
           destruct Hin as [Hc | [<- | Hr]].
           ++ destruct (Head Hc) as (l & [<- | []] & Hl).
              exists (rev cur). split; [left; reflexivity | exact Hl].
           ++ congruence.
           ++ destruct (Tail r) as (l & Hl & Hs); [lia | exact Hr |].
              exists l. split; [right; exact Hl | exact Hs].
        -- apply IH; [lia|].
           exists x. split; [|exact Hx].
           cbn [rev]. rewrite <- app_assoc. apply in_or_app.
           destruct Hin as [Hc | Hr]; [left; exact Hc | right; exact Hr].
Qed.

Lemma nonblank_lines (out : str) :
  strip out <> [] ->
  map strip (filter (fun line => nonempty (strip line)) (splitlines out))
  <> [].
Proof.
  intros H.
  destruct (@nonblank_has_nonspace out H) as (x & Hin & Hx).
  destruct (@splitlines_from_nonblank (length out) out [] (le_n _))
    as (l & Hl & Hs).
  { exists x. split; [exact Hin | exact Hx]. }
  intros E.
  assert (In (strip l)
            (map strip
               (filter (fun line => nonempty (strip line)) (splitlines out)))).
  { apply in_map, filter_In. split; [exact Hl | apply nonempty_true, Hs]. }
  rewrite E in *. contradiction.
Qed.

Lemma lines_trimmed (out : str) :
  Forall trimmed
    (map strip (filter (fun line => nonempty (strip line)) (splitlines out))).
Proof.
  apply Forall_forall. intros p Hp.
  apply in_map_iff in Hp. destruct Hp as (l & <- & Hl).
  apply filter_In in Hl. destruct Hl as [_ Hl].
  split; [apply nonempty_true, Hl | apply strip_idem].
Qed.

(** C6, as amended.  The diff resolver never raises.  It runs the fetch,
    whose outcome it ignores, then the diff; it returns the empty list
    when the diff exits non-zero or prints nothing but whitespace, and
    otherwise the non-blank lines of the diff output, each trimmed, of
    which there is at least one. *)
Theorem changed_files_from_diff (w : World) (base_ref : str) (st : state)
    (code : Z) (out err : str) :
  cmd_result (subprocess_run w (calls st ++ [fetch_cmd base_ref])
                             (diff_cmd base_ref)) = (code, out, err) ->
  exists files,
    get_changed_files w base_ref st
    = (Ok files, ran (diff_cmd base_ref) (ran (fetch_cmd base_ref) st))
    /\ (code <> 0%Z \/ strip out = [] -> files = [])
    /\ (code = 0%Z -> strip out <> [] ->
        files = map strip
                  (filter (fun line => nonempty (strip line)) (splitlines out))
        /\ files <> [])
    /\ Forall trimmed files.
Proof.
  intros E. rewrite get_changed_files_eq, E.
  eexists. split; [reflexivity|].
  destruct (Z.eqb_spec code 0) as [-> | Hc]; cbn [negb orb].
  - destruct (nonempty (strip out)) eqn:Hn; cbn [negb].
    + apply nonempty_true in Hn.
      split; [intros [? | ?]; congruence|].
      split; [|apply lines_trimmed].
      intros _ _. split; [reflexivity | apply nonblank_lines, Hn].
    + apply nonempty_false in Hn.
      split; [reflexivity|]. split; [congruence | constructor].
  - split; [reflexivity|]. split; [congruence | constructor].
Qed.

Lemma changed_files_from_diff_witness :
  (cmd_result (subprocess_run fetch_fails_world
                 (calls init ++ [fetch_cmd (lit "main")])
                 (diff_cmd (lit "main"))) = (0%Z, lit "a.py", [])
   /\ strip (lit "a.py") <> []
   /\ get_changed_files fetch_fails_world (lit "main") init
      = (Ok [lit "a.py"],
         ran (diff_cmd (lit "main")) (ran (fetch_cmd (lit "main")) init)))
  /\ (cmd_result (subprocess_run quiet_world
                    (calls init ++ [fetch_cmd (lit "main")])
                    (diff_cmd (lit "main"))) = (0%Z, [], [])
      /\ strip [] = ([] : str)
      /\ get_changed_files quiet_world (lit "main") init
         = (Ok [],
            ran (diff_cmd (lit "main")) (ran (fetch_cmd (lit "main")) init))).
Proof.
  assert (E : cmd_result (subprocess_run fetch_fails_world
                (calls init ++ [fetch_cmd (lit "main")])
                (diff_cmd (lit "main"))) = (0%Z, lit "a.py", []))
    by (vm_compute; reflexivity).
  assert (Hn : strip (lit "a.py") <> []) by (vm_compute; discriminate).
  assert (E0 : cmd_result (subprocess_run quiet_world
                 (calls init ++ [fetch_cmd (lit "main")])
                 (diff_cmd (lit "main"))) = (0%Z, [], []))
    by reflexivity.
  assert (Hb : strip [] = ([] : str)) by reflexivity.
  split.
  - split; [exact E|]. split; [exact Hn|].
    destruct (@changed_files_from_diff fetch_fails_world (lit "main") init
                _ _ _ E) as (files & G & _ & L & _).
    destruct (L eq_refl Hn) as [-> _].
    rewrite G. vm_compute. reflexivity.
  - split; [exact E0|]. split; [exact Hb|].
    destruct (@changed_files_from_diff quiet_world (lit "main") init
                _ _ _ E0) as (files & G & B & _).
    rewrite (B (or_intror Hb)) in G. exact G.
Defined.

(** C6 as stated fails: the fetch exits 128, the diff still lists
    [a.py], and the resolver returns that list rather than the empty
    one. *)
Lemma fetch_failure_counterexample :
  cmd_result (subprocess_run fetch_fails_world (calls init)
                (fetch_cmd (lit "main")))
  = (128%Z, [], lit "fatal: unable to access remote")
  /\ fst (get_changed_files fetch_fails_world (lit "main") init)
     = Ok [lit "a.py"].
Proof. vm_compute. split; reflexivity. Qed.

(** *** The banner (C7) and the header (C8) *)

Lemma failure_banner_last :
  failure_banner = removelast failure_banner ++ @cons char 46%N [].
Proof. vm_compute. reflexivity. Qed.

Lemma success_banner_last :
  success_banner = removelast success_banner ++ @cons char 33%N [].
Proof. vm_compute. reflexivity. Qed.

Lemma banners_exclusive (s : str) :
  endswith (s ++ failure_banner) success_banner = false
  /\ endswith (s ++ success_banner) failure_banner = false.
Proof.
  assert (F : (46 <> 33)%N) by discriminate.
  assert (S : (33 <> 46)%N) by discriminate.
  pose proof (@endswith_last_differs s (removelast failure_banner)
                (removelast success_banner) _ _ F) as H1.
  pose proof (@endswith_last_differs s (removelast success_banner)
                (removelast failure_banner) _ _ S) as H2.
  rewrite <- failure_banner_last, <- success_banner_last in H1, H2.
  split; assumption.
Qed.

Lemma report_body_banner (files : list str) (python_md js_md cpp_md : str)
    (total_fail : Z) :
  endswith (report_body files python_md js_md cpp_md total_fail)
           failure_banner = (0 <? total_fail)%Z
  /\ endswith (report_body files python_md js_md cpp_md total_fail)
              success_banner = negb (0 <? total_fail)%Z.
Proof.
  unfold report_body. destruct (0 <? total_fail)%Z; cbn [negb]; split.
  - exact (endswith_app _ failure_banner).
  - exact (proj1 (banners_exclusive _)).
  - exact (proj2 (banners_exclusive _)).
  - exact (endswith_app _ success_banner).
Qed.


(** C7.  The report is the header, the three checkers' sections and
    then one banner; it ends with the failure banner exactly when the sum
    of the three counts is positive, and with the success banner exactly
    when it is not. *)
Theorem report_ends_in_one_banner (files : list str)
    (python_md js_md cpp_md : str) (py_fail js_fail cpp_fail : Z) :
  let total_fail := (py_fail + js_fail + cpp_fail)%Z in
  let body := report_body files python_md js_md cpp_md total_fail in
  body = (header files ++ nl ++ nl ++ python_md ++ js_md ++ cpp_md)
           ++ (if (0 <? total_fail)%Z then failure_banner else success_banner)
  /\ endswith body failure_banner = (0 <? total_fail)%Z
  /\ endswith body success_banner = negb (0 <? total_fail)%Z.
Proof.
  intros total_fail body. subst body.
  split; [|apply report_body_banner].
  unfold report_body. destruct (0 <? total_fail)%Z; reflexivity.
Qed.

(** C8.  For a non-empty ChangedFileSet the header is the title, the
    line "Changed files:" and one bullet line for each of the first 50
    paths, in order, and nothing else: paths from the 51st on leave no
    trace in it. *)
Theorem header_lists_first_50 (files : list str) :
  files <> [] ->
  header files
  = lit "## Automated Code Review Summary" ++ nl ++ nl
      ++ lit "Changed files:"
      ++ flat_map (fun p => nl ++ lit "- " ++ p) (firstn 50 files)
  /\ length (firstn 50 files) = Nat.min 50 (length files)
  /\ header files = header (firstn 50 files)
  /\ (forall more, 50 <= length files -> header (files ++ more) = header files).
Proof.
  intros Hne. split; [|split; [|split]].
  - unfold header. destruct files as [|f rest]; [contradiction|].
    cbn [firstn]. rewrite join_cons. cbn [flat_map].
    rewrite <- !app_assoc. reflexivity.
  - apply length_firstn.
  - unfold header. rewrite firstn_firstn. reflexivity.
  - intros more Hlen. unfold header.
    rewrite firstn_app.
    replace (50 - length files) with 0 by lia.
    cbn [firstn]. rewrite app_nil_r. reflexivity.
Qed.

Lemma header_lists_first_50_witness :
  fifty_two_files <> []
  /\ 50 <= length fifty_two_files
  /\ length fifty_two_files = 52
  /\ header fifty_two_files
     = lit "## Automated Code Review Summary" ++ nl ++ nl
         ++ lit "Changed files:"
         ++ flat_map (fun p => nl ++ lit "- " ++ p)
                     (repeat (lit "first.py") 50)
  /\ length (firstn 50 fifty_two_files) = 50
  /\ header fifty_two_files = header (firstn 50 fifty_two_files)
  /\ header (fifty_two_files ++ [lit "more.py"]) = header fifty_two_files
  /\ contains (header fifty_two_files) (lit "fifty-first.py") = false.
Proof.
  assert (Hne : fifty_two_files <> []) by (vm_compute; discriminate).
  assert (Hlen : 50 <= length fifty_two_files) by (vm_compute; lia).
  destruct (header_lists_first_50 Hne) as (H1 & H2 & H3 & H4).
  split; [exact Hne|]. split; [exact Hlen|].
  split; [vm_compute; reflexivity|].
  split; [rewrite H1; vm_compute; reflexivity|].
  split; [rewrite H2; vm_compute; reflexivity|].
  split; [exact H3|].
  split; [exact (H4 [lit "more.py"] Hlen)|].
  rewrite H3. vm_compute. reflexivity.
Defined.

Example header_truncates :
  header (repeat (lit "f") 51 ++ [lit "last"]) = header (repeat (lit "f") 50).
Proof. vm_compute. reflexivity. Qed.

(** *** Exceptions of a tool (C9) *)

(** C9.  When [subprocess.run] raises (a timeout or any other
    exception), [run_cmd] returns exit code 1, an empty output and
    ["Exception: "] followed by the text of the exception; a sub-check on
    that result counts one failure and appends a non-empty section with
    the tool's heading and that text in a fenced block. *)
Theorem run_cmd_exception (w : World) (cmd : str) (st : state) (msg : str) :
  subprocess_run w (calls st) cmd = RunRaised msg ->
  run_cmd w cmd st = (Ok (1%Z, [], lit "Exception: " ++ msg), ran cmd st)
  /\ forall title ok_line sections failures,
       sub_check w cmd title ok_line (sections, failures) st
       = (Ok (sections ++ [md_section title (lit "Exception: " ++ msg)],
              (failures + 1)%Z),
          ran cmd st)
       /\ md_section title (lit "Exception: " ++ msg)
          = nl ++ lit "### " ++ title ++ nl ++ nl ++ lit "```" ++ nl
               ++ strip (lit "Exception: " ++ msg) ++ nl ++ lit "```" ++ nl
       /\ strip (lit "Exception: " ++ msg) <> [].
Proof.
  intros E.
  assert (R : cmd_result (subprocess_run w (calls st) cmd)
              = (1%Z, [], lit "Exception: " ++ msg))
    by (rewrite E; reflexivity).
  split.
  - rewrite run_cmd_eq, R. reflexivity.
  - intros title ok_line sections failures.
    split; [|split].
    + rewrite (@sub_check_fail w cmd title ok_line sections failures st
                 _ _ _ R) by discriminate.
      reflexivity.
    + apply md_section_nonblank, exception_text_nonblank.
    + apply exception_text_nonblank.
Qed.

Lemma run_cmd_exception_witness :
  let cmd := lit "pytest -q" in
  let msg := lit "Command timed out after 600 seconds" in
  subprocess_run timeout_world (calls init) cmd = RunRaised msg
  /\ run_cmd timeout_world cmd init
     = (Ok (1%Z, [], lit "Exception: " ++ msg), ran cmd init)
  /\ sub_check timeout_world cmd (lit "pytest") pytest_ok ([], 0%Z) init
     = (Ok ([md_section (lit "pytest") (lit "Exception: " ++ msg)], 1%Z),
        ran cmd init).
Proof.
  intros cmd msg.
  assert (E : subprocess_run timeout_world (calls init) cmd = RunRaised msg)
    by reflexivity.
  split; [exact E|].
  destruct (run_cmd_exception timeout_world cmd init E) as [R S].
  split; [exact R|].
  exact (proj1 (S (lit "pytest") pytest_ok [] 0%Z)).
Defined.

(** *** Bounds on the counts (C10) *)



Example timeout_world_counts :
  fst (check_python timeout_world [lit "a.py"] init)
  = Ok (md_section (lit "Python flake8")
          (lit "Exception: Command timed out after 600 seconds")
        ++ nl ++
        md_section (lit "Python black --check")
          (lit "Exception: Command timed out after 600 seconds"), 2%Z).
Proof. vm_compute. reflexivity. Qed.

(** * Further properties of the script *)

(** ** The checkers, tool by tool *)

(** X1.  With at least one [.py] file, the Python checker starts flake8,
    then black, then pytest when [tests] exists: each once, in that
    order and whatever the earlier tools returned.  It prints and posts
    nothing, and its count is the number of those tools that exited
    non-zero. *)
Theorem check_python_runs_each_tool (w : World) (files : list str)
    (st : state) :
  py_files files <> [] ->
  let h2 := calls st ++ [flake8_cmd files; black_cmd files] in
  let tests := path_exists w h2 (lit "tests") in
  exists md,
    check_python w files st
    = (Ok (md,
           (failed w (calls st) (flake8_cmd files)
            + failed w (calls st ++ [flake8_cmd files]) (black_cmd files)
            + (if tests then failed w h2 pytest_cmd else 0))%Z),
       State (h2 ++ (if tests then [pytest_cmd] else []))
             (printed st) (posted st)).
Proof.
  intros Hne h2 tests. subst h2 tests.
  rewrite (check_python_report w files st Hne). eexists. reflexivity.
Qed.

Lemma check_python_runs_each_tool_witness :
  py_files [lit "README.md"; lit "a.py"] <> []
  /\ exists md,
       check_python black_fails_world [lit "README.md"; lit "a.py"] init
       = (Ok (md, 1%Z),
          State [lit "flake8 a.py"; lit "black --check a.py"] [] []).
Proof.
  assert (Hne : py_files [lit "README.md"; lit "a.py"] <> [])
    by (vm_compute; discriminate).
  split; [exact Hne|].
  destruct (check_python_runs_each_tool black_fails_world
              [lit "README.md"; lit "a.py"] init Hne) as [md E].
  exists md. rewrite E. vm_compute. reflexivity.
Defined.

(** X2.  With at least one script file and [package.json] present, the
    script-language checker starts ESLint, then Prettier: each once,
    whatever ESLint returned.  It prints and posts nothing, and its count
    is the number of the two that exited non-zero. *)
Theorem check_js_runs_each_tool (w : World) (files : list str) (st : state) :
  js_files files <> [] ->
  path_exists w (calls st) (lit "package.json") = true ->
  exists md,
    check_js w files st
    = (Ok (md,
           (failed w (calls st) (eslint_cmd files)
            + failed w (calls st ++ [eslint_cmd files]) (prettier_cmd files))%Z),
       State (calls st ++ [eslint_cmd files; prettier_cmd files])
             (printed st) (posted st)).
Proof.
  intros Hne Hman.
  rewrite (check_js_report w files st Hne Hman). eexists. reflexivity.
Qed.

Lemma check_js_runs_each_tool_witness :
  js_files [lit "x.ts"] <> []
  /\ path_exists eslint_fails_world (calls init) (lit "package.json") = true
  /\ exists md,
       check_js eslint_fails_world [lit "x.ts"] init
       = (Ok (md, 1%Z),
          State [lit "npx --yes eslint x.ts"; lit "npx --yes prettier -c x.ts"]
                [] []).
Proof.
  assert (Hne : js_files [lit "x.ts"] <> []) by (vm_compute; discriminate).
  assert (Hman : path_exists eslint_fails_world (calls init)
                   (lit "package.json") = true) by (vm_compute; reflexivity).
  split; [exact Hne|]. split; [exact Hman|].
  destruct (check_js_runs_each_tool eslint_fails_world [lit "x.ts"] init
              Hne Hman) as [md E].
  exists md. rewrite E. vm_compute. reflexivity.
Defined.

(** X3.  With at least one native-language file, the native-language
    checker starts cpplint once and then one clang-format dry run per
    matched file, in the order of the files, whatever the earlier commands
    returned; it prints and posts nothing.  For tools that answer the same
    whatever ran before, its count is 1 for a failing cpplint plus 1 when
    at least one dry run exits non-zero, however many do. *)
Theorem check_cpp_runs_each_tool (w : World) (files : list str) (st : state) :
  cpp_files files <> [] ->
  exists md n,
    check_cpp w files st
    = (Ok (md, n),
       State (calls st ++ cpplint_cmd files
                :: map clang_format_cmd (cpp_files files))
             (printed st) (posted st))
    /\ (stateless w ->
        n = (failed w [] (cpplint_cmd files)
             + (if existsb
                     (fun f =>
                        negb (exit_status w [] (clang_format_cmd f) =? 0)%Z)
                     (cpp_files files)
                then 1 else 0))%Z).
Proof.
  intros Hne.
  destruct (check_cpp_report w files st Hne) as (changed & _ & E & S & _).
  rewrite E. eexists _, _. split; [reflexivity|].
  intros Hs. rewrite existsb_filter, <- (S Hs).
  unfold failed, exit_status. rewrite (Hs [] (calls st)). reflexivity.
Qed.

Lemma check_cpp_runs_each_tool_witness :
  cpp_files [lit "a.cpp"; lit "b.h"] <> []
  /\ stateless clang_format_world
  /\ exists md,
       check_cpp clang_format_world [lit "a.cpp"; lit "b.h"] init
       = (Ok (md, 1%Z),
          State [lit "cpplint a.cpp b.h";
                 lit "clang-format --dry-run --Werror a.cpp";
                 lit "clang-format --dry-run --Werror b.h"] [] []).
Proof.
  assert (Hne : cpp_files [lit "a.cpp"; lit "b.h"] <> [])
    by (vm_compute; discriminate).
  assert (Hs : stateless clang_format_world) by (intros h h' cmd; reflexivity).
  split; [exact Hne|]. split; [exact Hs|].
  destruct (check_cpp_runs_each_tool clang_format_world
              [lit "a.cpp"; lit "b.h"] init Hne) as (md & n & E & N).
  exists md. rewrite E, (N Hs). vm_compute. reflexivity.
Defined.

(** *** The clang-format section lists file names *)





(** *** What the checkers look at, and what they leave alone *)

Lemma filter_idem (A : Type) (p : A -> bool) (l : list A) :
  filter p (filter p l) = filter p l.
Proof.
  induction l as [|a l IH]; [reflexivity|].
  simpl. destruct (p a) eqn:Ha; [|exact IH].
  simpl. rewrite Ha, IH. reflexivity.
Qed.

(** X5.  A checker looks only at the files of its own extensions: run on
    the whole ChangedFileSet or on its matching files alone, from the same
    state, it does the same and returns the same. *)
Theorem checkers_ignore_other_files (w : World) (files : list str)
    (st : state) :
  check_python w files st = check_python w (py_files files) st
  /\ check_js w files st = check_js w (js_files files) st
  /\ check_cpp w files st = check_cpp w (cpp_files files) st.
Proof.
  unfold check_python, check_js, check_cpp, py_files, js_files, cpp_files.
  rewrite !filter_idem. repeat split.
Qed.

(** X6.  The checkers only run commands: whatever the files and the
    tools' answers, a checker prints nothing, sends no comment, and leaves
    the record of earlier commands in place, adding its own after it. *)
Theorem checkers_only_run_commands (w : World) (files : list str)
    (st : state) :
  extends st (snd (check_python w files st))
  /\ extends st (snd (check_js w files st))
  /\ extends st (snd (check_cpp w files st)).
Proof.
  destruct (check_python_total w files st) as (? & ? & ? & -> & _ & _ & X1).
  destruct (check_js_total w files st) as (? & ? & ? & -> & _ & X2).
  destruct (check_cpp_total w files st) as (? & ? & ? & -> & _ & X3).
  cbn [snd]. split; [|split]; assumption.
Qed.

(** *** When every tool passes *)





(** ** A run, case by case *)

Lemma sent_length (w : World) (pr : json) (body : str) :
  length (sent w pr body) <= 1.
Proof. unfold sent. destruct (publish_enabled w pr); simpl; lia. Qed.







(** X11.  No run sends more than one comment. *)
Theorem at_most_one_comment (w : World) :
  length (posted (snd (run w))) <= 1.
Proof.
  destruct (get_pr_number_result w init) as [[pr Hpr] | [msg Hm]].
  - destruct (@run_cases w pr Hpr) as (body & more & r & st' & R & _ & P & _).
    rewrite R. cbn [snd]. rewrite P. apply sent_length.
  - rewrite (@run_lookup_raised w _ Hm). cbn. lia.
Qed.




(** ** The PR-number lookup on a readable event file *)

(** X14.  When the event file parses to an object whose
    ["pull_request"] entry is a non-empty object, the lookup returns that
    object's ["number"] entry as it is, and [None] when there is no such
    entry. *)
Theorem pr_number_found (w : World) (st : state)
    (items pr_items : list (str * json)) :
  event_path w <> [] ->
  path_is_file w (calls st) (event_path w) = true ->
  json_load w (calls st) (event_path w) = Loaded (JObj items) ->
  lookup (lit "pull_request") items = JObj pr_items ->
  pr_items <> [] ->
  get_pr_number_from_event w st = (Ok (lookup (lit "number") pr_items), st).
Proof.
  intros Hp Hf Hl Hpr Hne.
  unfold get_pr_number_from_event. fold (event_path w).
  unfold bind, is_file, load_json, get, ret, raise.
  apply nonempty_true in Hp. rewrite Hp, Hf. cbn [negb]. cbv beta iota.
  rewrite Hl, Hpr. cbn [truthy].
  rewrite (is_empty_false Hne). reflexivity.
Qed.

Lemma pr_number_found_witness :
  event_path online_world <> []
  /\ path_is_file online_world (calls init) (event_path online_world) = true
  /\ json_load online_world (calls init) (event_path online_world)
     = Loaded (JObj [(lit "pull_request", JObj [(lit "number", JInt 7)])])
  /\ lookup (lit "pull_request")
       [(lit "pull_request", JObj [(lit "number", JInt 7)])]
     = JObj [(lit "number", JInt 7)]
  /\ [(lit "number", JInt 7)] <> []
  /\ get_pr_number_from_event online_world init = (Ok (JInt 7), init).
Proof.
  assert (Hp : event_path online_world <> []) by (vm_compute; discriminate).
  assert (Hf : path_is_file online_world (calls init)
                 (event_path online_world) = true)
    by (vm_compute; reflexivity).
  assert (Hl : json_load online_world (calls init) (event_path online_world)
               = Loaded (JObj [(lit "pull_request",
                                JObj [(lit "number", JInt 7)])]))
    by reflexivity.
  assert (Hpr : lookup (lit "pull_request")
                  [(lit "pull_request", JObj [(lit "number", JInt 7)])]
                = JObj [(lit "number", JInt 7)])
    by (vm_compute; reflexivity).
  assert (Hne : [(lit "number", JInt 7)] <> []) by discriminate.
  split; [exact Hp|]. split; [exact Hf|]. split; [exact Hl|].
  split; [exact Hpr|]. split; [exact Hne|].
  rewrite (@pr_number_found online_world init _ _ Hp Hf Hl Hpr Hne).
  vm_compute. reflexivity.
Defined.

(** X15.  A parseable event file can still make the lookup raise: when
    its top level is not an object (a list, a string, a number, [null]),
    and when its ["pull_request"] entry is truthy but not an object; in
    both cases [.get] does not exist and the exception leaves the
    function. *)
Theorem pr_number_lookup_needs_objects (w : World) (st : state)
    (data : json) :
  event_path w <> [] ->
  path_is_file w (calls st) (event_path w) = true ->
  json_load w (calls st) (event_path w) = Loaded data ->
  (is_object data = false ->
   exists msg, get_pr_number_from_event w st = (Raise (Exception msg), st))
  /\ (forall items,
        data = JObj items ->
        truthy (lookup (lit "pull_request") items) = true ->
        is_object (lookup (lit "pull_request") items) = false ->
        exists msg,
          get_pr_number_from_event w st = (Raise (Exception msg), st)).
Proof.
  intros Hp Hf Hl.
  unfold get_pr_number_from_event. fold (event_path w).
  unfold bind, is_file, load_json, get, ret, raise.
  apply nonempty_true in Hp. rewrite Hp, Hf. cbn [negb]. cbv beta iota.
  rewrite Hl. split.
  - intros Ho. destruct data; try discriminate; eexists; reflexivity.
  - intros items -> Ht Ho. rewrite Ht. cbn [negb].
    destruct (lookup (lit "pull_request") items);
      try discriminate; eexists; reflexivity.
Qed.

Lemma pr_number_lookup_needs_objects_witness :
  (event_path array_event_world <> []
   /\ path_is_file array_event_world (calls init)
        (event_path array_event_world) = true
   /\ json_load array_event_world (calls init) (event_path array_event_world)
      = Loaded (JArr [JInt 7])
   /\ is_object (JArr [JInt 7]) = false
   /\ exists msg,
        get_pr_number_from_event array_event_world init
        = (Raise (Exception msg), init))
  /\ (truthy (lookup (lit "pull_request")
                [(lit "pull_request", JStr (lit "7"))]) = true
      /\ is_object (lookup (lit "pull_request")
                      [(lit "pull_request", JStr (lit "7"))]) = false
      /\ exists msg,
           get_pr_number_from_event string_pr_world init
           = (Raise (Exception msg), init)).
Proof.
  assert (Hp : event_path array_event_world <> [])
    by (vm_compute; discriminate).
  assert (Hf : path_is_file array_event_world (calls init)
                 (event_path array_event_world) = true)
    by (vm_compute; reflexivity).
  assert (Hl : json_load array_event_world (calls init)
                 (event_path array_event_world) = Loaded (JArr [JInt 7]))
    by reflexivity.
  assert (Ho : is_object (JArr [JInt 7]) = false) by reflexivity.
  assert (Hp' : event_path string_pr_world <> [])
    by (vm_compute; discriminate).
  assert (Hf' : path_is_file string_pr_world (calls init)
                  (event_path string_pr_world) = true)
    by (vm_compute; reflexivity).
  assert (Hl' : json_load string_pr_world (calls init)
                  (event_path string_pr_world)
                = Loaded (JObj [(lit "pull_request", JStr (lit "7"))]))
    by reflexivity.
  assert (Ht : truthy (lookup (lit "pull_request")
                         [(lit "pull_request", JStr (lit "7"))]) = true)
    by (vm_compute; reflexivity).
  assert (Ho' : is_object (lookup (lit "pull_request")
                             [(lit "pull_request", JStr (lit "7"))]) = false)
    by (vm_compute; reflexivity).
  split.
  - split; [exact Hp|]. split; [exact Hf|]. split; [exact Hl|].
    split; [exact Ho|].
    exact (proj1 (@pr_number_lookup_needs_objects array_event_world init _
                    Hp Hf Hl) Ho).
  - split; [exact Ht|]. split; [exact Ho'|].
    exact (proj2 (@pr_number_lookup_needs_objects string_pr_world init _
                    Hp' Hf' Hl') _ eq_refl Ht Ho').
Defined.

(** X16.  The PR-number lookup only reads: whatever the environment and
    the event file hold, it starts no command, prints nothing and sends
    nothing, and it never ends the process by itself: it returns a value
    or raises an [Exception]. *)
Theorem pr_number_lookup_only_reads (w : World) (st : state) :
  snd (get_pr_number_from_event w st) = st
  /\ ((exists pr, fst (get_pr_number_from_event w st) = Ok pr)
      \/ (exists msg,
            fst (get_pr_number_from_event w st) = Raise (Exception msg))).
Proof.
  destruct (get_pr_number_result w st) as [[pr E] | [msg E]]; rewrite E.
  - split; [reflexivity|]. left. exists pr. reflexivity.
  - split; [reflexivity|]. right. exists msg. reflexivity.
Qed.

(** An event path that is too long for the file system: [is_file]
    raises, and so does the lookup. *)
Example pr_number_lookup_long_path :
  get_pr_number_from_event long_path_world init
  = (Raise (Exception (lit "[Errno 36] File name too long")), init).
Proof. vm_compute. reflexivity. Qed.

(** ** The paths the diff resolver returns *)

Lemma single_line_nil : single_line [].
Proof. intros c []. Qed.

Lemma single_line_strip (p : str) : single_line p -> single_line (strip p).
Proof. intros H c Hc. apply H, In_strip, Hc. Qed.

Lemma splitlines_from_single_line (n : nat) :
  forall (s cur : str),
    length s <= n ->
    single_line (rev cur) ->
    Forall single_line (splitlines_from cur s).
Proof.
  induction n as [|n IH]; intros s cur Hlen Hcur.
  - destruct s; [|simpl in Hlen; lia].
    simpl. destruct cur; constructor; [exact Hcur | constructor].
  - destruct s as [|c r].
    + simpl. destruct cur; constructor; [exact Hcur | constructor].
    + simpl in Hlen. cbn [splitlines_from].
      destruct (c =? 13)%N eqn:E13.
      * destruct r as [|c' r'].
        -- constructor; [exact Hcur|]. apply IH; [simpl; lia|].
           exact single_line_nil.
        -- destruct (c' =? 10)%N; (constructor; [exact Hcur|]);
             (apply IH; [simpl in *; lia | exact single_line_nil]).
      * destruct (is_linebreak c) eqn:Elb.
        -- constructor; [exact Hcur|].
           apply IH; [lia | exact single_line_nil].
        -- apply IH; [lia|].
           cbn [rev]. intros x Hx. apply in_app_or in Hx.
           destruct Hx as [Hx | [<- | []]]; [apply Hcur, Hx | exact Elb].
Qed.

(** X17.  The diff resolver never raises, and no path it returns holds a
    line-boundary character: a path is a piece of one line of the diff
    output. *)
Theorem changed_paths_are_single_lines (w : World) (base_ref : str)
    (st : state) :
  exists files st',
    get_changed_files w base_ref st = (Ok files, st')
    /\ Forall single_line files.
Proof.
  rewrite get_changed_files_eq. eexists _, _. split; [reflexivity|].
  destruct (cmd_result _) as [[code out] err].
  destruct (negb (code =? 0)%Z || negb (nonempty (strip out)));
    [constructor|].
  apply Forall_forall. intros p Hp.
  apply in_map_iff in Hp. destruct Hp as (l & <- & Hl).
  apply filter_In in Hl. destruct Hl as [Hl _].
  apply single_line_strip.
  pose proof (@splitlines_from_single_line (length out) out [] (le_n _)
                single_line_nil) as H.
  rewrite Forall_forall in H. apply H, Hl.
Qed.

(** ** Sections and banners *)

(** X18.  [md_section] ignores whitespace around the body: the section
    of a body and of the stripped body are the same, and the section is
    the empty string exactly when the body is blank. *)
Theorem md_section_strips_body (title body : str) :
  md_section title (strip body) = md_section title body
  /\ (md_section title body = [] <-> strip body = []).
Proof.
  split.
  - unfold md_section. rewrite strip_idem. reflexivity.
  - split.
    + intros H. destruct (strip body) eqn:E; [reflexivity|].
      rewrite md_section_nonblank in H by (rewrite E; discriminate).
      discriminate.
    + apply md_section_blank.
Qed.



(** ** A failing linter fails the run *)



